(** * riak/riak_object.py: vector clocks, sibling delegation and object identity

    A shallow embedding of [riak.riak_object]: the [VClock] codec with the
    [base64] and [binascii] routines it dispatches to, the [content_property]
    and [content_method] delegators, and the [RiakObject] operations
    ([exists], [resolver], [store], [reload], [delete], [clear], [__eq__]).

    Python bytes are [list byte]; machine integers of the C helpers are [Z]
    with the masks of the C source written out; a raised exception is a value
    of [exn] and leaves the mutated state in place. *)

From Stdlib Require Import ZArith List String Bool Lia.
From Stdlib Require Import Init.Byte Strings.Byte.
Import ListNotations.
Local Open Scope Z_scope.

(** ** Exceptions and results *)

Inductive exn : Type :=
| ConflictError (msg : string)
| KeyError (key : string)
| ValueError (msg : string)
| TypeError (msg : string)
| binascii_Error
| OtherError (msg : string).

Inductive result (A : Type) : Type :=
| Ok (a : A)
| Raise (e : exn).
Arguments Ok {A} a.
Arguments Raise {A} e.

Definition is_ok {A} (r : result A) : bool :=
  match r with Ok _ => true | Raise _ => false end.

Definition bytes := list byte.

Definition byte_val (b : byte) : Z := Z.of_N (Byte.to_N b).

(** Storing an [int] into an [unsigned char] keeps the low eight bits. *)
Definition byte_of_Z (z : Z) : byte :=
  match Byte.of_N (Z.to_N (z mod 256)) with
  | Some b => b
  | None => x00
  end.

(** ** binascii: the base64 routines behind [base64.b64encode] / [b64decode] *)

Module binascii.

Definition BASE64_PAD : Z := 61.

Definition table_b2a_base64 : bytes :=
  list_byte_of_string
    "ABCDEFGHIJKLMNOPQRSTUVWXYZabcdefghijklmnopqrstuvwxyz0123456789+/".

Definition b2a (i : Z) : byte := nth (Z.to_nat i) table_b2a_base64 x00.

(** [table_a2b_base64]: 128 entries, 255 (the unsigned char -1) marks a
    character outside the alphabet; the pad character maps to 0. *)
Definition table_a2b_base64 : list Z :=
  [255;255;255;255; 255;255;255;255; 255;255;255;255; 255;255;255;255;
   255;255;255;255; 255;255;255;255; 255;255;255;255; 255;255;255;255;
   255;255;255;255; 255;255;255;255; 255;255;255;62;  255;255;255;63;
   52;53;54;55;     56;57;58;59;     60;61;255;255;   255;0;255;255;
   255;0;1;2;       3;4;5;6;         7;8;9;10;        11;12;13;14;
   15;16;17;18;     19;20;21;22;     23;24;25;255;    255;255;255;255;
   255;26;27;28;    29;30;31;32;     33;34;35;36;     37;38;39;40;
   41;42;43;44;     45;46;47;48;     49;50;51;255;    255;255;255;255].

Definition a2b (c : Z) : Z := nth (Z.to_nat c) table_a2b_base64 255.

(** [b2a_base64] three input bytes at a time; the one- and two-byte tails
    are the [leftbits == 2] and [leftbits == 4] exits of the C loop. *)
Fixpoint b2a_base64 (bin : bytes) : bytes :=
  match bin with
  | [] => []
  | [x] =>
      let a := byte_val x in
      [b2a (Z.shiftr a 2); b2a (Z.shiftl (Z.land a 3) 4);
       byte_of_Z BASE64_PAD; byte_of_Z BASE64_PAD]
  | [x; y] =>
      let a := byte_val x in
      let b := byte_val y in
      [b2a (Z.shiftr a 2);
       b2a (Z.lor (Z.shiftl (Z.land a 3) 4) (Z.shiftr b 4));
       b2a (Z.shiftl (Z.land b 15) 2);
       byte_of_Z BASE64_PAD]
  | x :: y :: z :: rest =>
      let a := byte_val x in
      let b := byte_val y in
      let c := byte_val z in
      b2a (Z.shiftr a 2)
      :: b2a (Z.lor (Z.shiftl (Z.land a 3) 4) (Z.shiftr b 4))
      :: b2a (Z.lor (Z.shiftl (Z.land b 15) 2) (Z.shiftr c 6))
      :: b2a (Z.land c 63)
      :: b2a_base64 rest
  end.

(** [binascii_find_valid(s, slen, num)]: the (num+1)th valid base64
    character of [s], or -1. *)
Fixpoint binascii_find_valid (s : bytes) (num : Z) : Z :=
  match s with
  | [] => -1
  | ch :: rest =>
      let c := byte_val ch in
      let b64val := a2b (Z.land c 127) in
      if (c <=? 127) && negb (b64val =? 255) then
        if num =? 0 then c else binascii_find_valid rest (num - 1)
      else binascii_find_valid rest num
  end.

(** The main loop of [a2b_base64]: the decoded bytes and the value of
    [leftbits] when the loop is left. *)
Fixpoint a2b_loop (s : bytes) (quad_pos leftbits leftchar : Z) : bytes * Z :=
  match s with
  | [] => ([], leftbits)
  | ch :: rest =>
      let this_ch := byte_val ch in
      if (this_ch >? 127) || (this_ch =? 13) || (this_ch =? 10)
         || (this_ch =? 32)
      then a2b_loop rest quad_pos leftbits leftchar
      else if this_ch =? BASE64_PAD then
        if (quad_pos <? 2)
           || ((quad_pos =? 2)
               && negb (binascii_find_valid s 1 =? BASE64_PAD))
        then a2b_loop rest quad_pos leftbits leftchar
        else ([], 0)
      else
        let v := a2b this_ch in
        if v =? 255 then a2b_loop rest quad_pos leftbits leftchar
        else
          let quad_pos' := Z.land (quad_pos + 1) 3 in
          let leftchar' := Z.lor (Z.shiftl leftchar 6) v in
          let leftbits' := leftbits + 6 in
          if leftbits' >=? 8 then
            let leftbits'' := leftbits' - 8 in
            let o := byte_of_Z (Z.land (Z.shiftr leftchar' leftbits'') 255) in
            let '(out, lb) :=
              a2b_loop rest quad_pos' leftbits''
                (Z.land leftchar' (Z.shiftl 1 leftbits'' - 1)) in
            (o :: out, lb)
          else a2b_loop rest quad_pos' leftbits' leftchar'
  end.

(** The routine fails with [binascii.Error] when bits are left over. The
    text of that error is "Incorrect padding" on Python 2.7 and differs
    between Python 3 releases; [binascii_Error] stands for the class. *)
Definition a2b_base64 (s : bytes) : result bytes :=
  let '(out, lb) := a2b_loop s 0 0 0 in
  if lb =? 0 then Ok out else Raise binascii_Error.

End binascii.

(** ** The decoder loop seen as a machine, for the round-trip argument *)

Module Decoder.

Import binascii.

(** A character that the loop shifts in: not skipped, not the pad, and in
    the alphabet. *)
Definition is_data (ch : byte) : bool :=
  let c := byte_val ch in
  negb ((c >? 127) || (c =? 13) || (c =? 10) || (c =? 32))
  && negb (c =? BASE64_PAD)
  && negb (a2b c =? 255).

(** [quad_pos], [leftbits], [leftchar]. *)
Definition state : Type := Z * Z * Z.

(** One data character: the byte written, if any, and the next state. *)
Definition step (st : state) (ch : byte) : bytes * state :=
  let '(quad_pos, leftbits, leftchar) := st in
  let quad_pos' := Z.land (quad_pos + 1) 3 in
  let leftchar' := Z.lor (Z.shiftl leftchar 6) (a2b (byte_val ch)) in
  let leftbits' := leftbits + 6 in
  if leftbits' >=? 8 then
    ([byte_of_Z (Z.land (Z.shiftr leftchar' (leftbits' - 8)) 255)],
     (quad_pos', leftbits' - 8,
      Z.land leftchar' (Z.shiftl 1 (leftbits' - 8) - 1)))
  else ([], (quad_pos', leftbits', leftchar')).

Fixpoint run (st : state) (s : bytes) : bytes * state :=
  match s with
  | [] => ([], st)
  | ch :: rest =>
      let '(o, st') := step st ch in
      let '(out, st'') := run st' rest in
      (o ++ out, st'')
  end.

Definition loop_from (st : state) (s : bytes) : bytes * Z :=
  let '(quad_pos, leftbits, leftchar) := st in
  a2b_loop s quad_pos leftbits leftchar.

(** The four characters that [b2a_base64] writes for three bytes, and the
    characters of its two tails. *)
Definition e1 (x : byte) : byte := b2a (Z.shiftr (byte_val x) 2).
Definition e2 (x y : byte) : byte :=
  b2a (Z.lor (Z.shiftl (Z.land (byte_val x) 3) 4) (Z.shiftr (byte_val y) 4)).
Definition e3 (y z : byte) : byte :=
  b2a (Z.lor (Z.shiftl (Z.land (byte_val y) 15) 2) (Z.shiftr (byte_val z) 6)).
Definition e4 (z : byte) : byte := b2a (Z.land (byte_val z) 63).
Definition e2_tail (x : byte) : byte :=
  b2a (Z.shiftl (Z.land (byte_val x) 3) 4).
Definition e3_tail (y : byte) : byte :=
  b2a (Z.shiftl (Z.land (byte_val y) 15) 2).
Definition pad : byte := byte_of_Z BASE64_PAD.

Definition all_bytes : bytes :=
  map (fun n => byte_of_Z (Z.of_nat n)) (seq 0 256).

Definition state_eqb (a b : state) : bool :=
  let '(q, lb, lc) := a in
  let '(q', lb', lc') := b in
  (q =? q') && (lb =? lb') && (lc =? lc').

Definition out_eqb (a b : bytes * state) : bool :=
  (if list_eq_dec Byte.byte_eq_dec (fst a) (fst b) then true else false)
  && state_eqb (snd a) (snd b).

(** The checks that are run over all bytes. *)
Definition check_first (x y : byte) : bool :=
  is_data (e1 x) && is_data (e2 x y)
  && out_eqb (run (0, 0, 0) [e1 x; e2 x y])
             ([x], (2, 4, Z.shiftr (byte_val y) 4)).

Definition check_third (y z : byte) : bool :=
  is_data (e3 y z)
  && out_eqb (run (2, 4, Z.shiftr (byte_val y) 4) [e3 y z])
             ([y], (3, 2, Z.shiftr (byte_val z) 6)).

Definition check_fourth (z : byte) : bool :=
  is_data (e4 z)
  && out_eqb (run (3, 2, Z.shiftr (byte_val z) 6) [e4 z]) ([z], (0, 0, 0)).

Definition check_tail1 (x : byte) : bool :=
  is_data (e1 x) && is_data (e2_tail x)
  && out_eqb (run (0, 0, 0) [e1 x; e2_tail x]) ([x], (2, 4, 0)).

Definition check_tail2 (y : byte) : bool :=
  is_data (e3_tail y)
  && out_eqb (run (2, 4, Z.shiftr (byte_val y) 4) [e3_tail y])
             ([y], (3, 2, 0)).

End Decoder.

(** ** base64 *)

Module base64.

Section py.
Variable PY2 : bool.

(** [b64encode]: [binascii.b2a_base64(s)] without its trailing newline. *)
Definition b64encode (s : bytes) : result bytes :=
  Ok (binascii.b2a_base64 s).

(** [b64decode]: Python 2 turns [binascii.Error] into a [TypeError] with
    its text; Python 3 lets it through. *)
Definition b64decode (s : bytes) : result bytes :=
  match binascii.a2b_base64 s with
  | Raise binascii_Error =>
      if PY2 then Raise (TypeError "Incorrect padding")
      else Raise binascii_Error
  | r => r
  end.

End py.
End base64.

(** ** class VClock *)

Module VClock.

(** A [VClock] instance: its identity (what [id()] returns; the class
    defines neither [__eq__] nor [__hash__], so both default to it) and the
    decoded clock. *)
Record VClock : Type := mk {
  ob_id : Z;
  _vclock : bytes
}.

Definition codec := bytes -> result bytes.

Fixpoint dict_get {V} (d : list (string * V)) (k : string) : option V :=
  match d with
  | [] => None
  | (k', v) :: d' => if String.eqb k' k then Some v else dict_get d' k
  end.

Section py.
Variable PY2 : bool.

(** [str] on Python 2 and [bytes] on Python 3: the value itself. *)
Definition binary : codec := fun s => Ok s.

Definition _decoders : list (string * codec) :=
  [("base64"%string, base64.b64decode PY2); ("binary"%string, binary)].

Definition _encoders : list (string * codec) :=
  [("base64"%string, base64.b64encode); ("binary"%string, binary)].

(** [VClock(value, encoding)]; [self_id] is the identity of the new object. *)
Definition __init__ (self_id : Z) (value : bytes) (encoding : string)
  : result VClock :=
  match dict_get _decoders encoding with
  | None => Raise (KeyError encoding)
  | Some dec =>
      match dec value with
      | Ok v => Ok (mk self_id v)
      | Raise e => Raise e
      end
  end.

Definition encode (self : VClock) (encoding : string) : result bytes :=
  match dict_get _encoders encoding with
  | Some enc => enc (_vclock self)
  | None =>
      Raise (ValueError
               (encoding ++ " is not a valid vector clock encoding"))
  end.

End py.
End VClock.

(** The two encoding names of [_decoders] and [_encoders]. *)
Definition supported (e : string) : Prop :=
  e = "base64"%string \/ e = "binary"%string.

(** ** Python values seen by the record *)

Inductive PyVal : Type :=
| PyNone
| PyBool (b : bool)
| PyInt (n : Z)
| PyStr (s : string)
| PyBytes (s : bytes)
| PyFunc (name : string).

Definition callable (v : PyVal) : bool :=
  match v with PyFunc _ => true | _ => false end.

Definition is_None (v : PyVal) : bool :=
  match v with PyNone => true | _ => false end.

(** What the record reads from its [RiakBucket]. *)
Record RiakBucket : Type := {
  bucket_name : string;
  bucket_resolver : PyVal
}.

(** The interpreter's [hash]: of a [str], of [None], of a bucket
    ([RiakBucket.__hash__]), of an object that inherits [object.__hash__]
    (a function of its identity), and of a tuple from its items' hashes. *)
Record PyHash : Type := {
  hash_str : string -> Z;
  hash_None : Z;
  hash_bucket : RiakBucket -> Z;
  object_hash : Z -> Z;
  hash_tuple : list Z -> Z
}.

(** [riak.content.RiakContent] is a collaborator: a fresh instance
    ([RiakContent(self)]), its attribute protocol (a property of the content
    may compute, mutate the content and raise), its methods and its
    [exists] flag. *)
Class Content : Type := {
  RiakContent : Type;
  RiakContent_new : RiakContent;
  content_getattr : string -> RiakContent -> RiakContent * result PyVal;
  content_setattr :
    string -> PyVal -> RiakContent -> RiakContent * result unit;
  content_call :
    string -> list PyVal -> RiakContent -> RiakContent * result PyVal;
  content_exists : RiakContent -> bool
}.

(** ** class RiakObject *)

Section RiakObject.

Context {content : Content}.

Record RiakObject : Type := {
  ob_mro : list string;
  _resolver : PyVal;
  bucket : RiakBucket;
  key : option string;
  vclock : option VClock.VClock;
  siblings : list RiakContent
}.

Definition set_siblings (o : RiakObject) (l : list RiakContent) : RiakObject :=
  {| ob_mro := ob_mro o; _resolver := _resolver o; bucket := bucket o;
     key := key o; vclock := vclock o; siblings := l |}.

Definition set__resolver (o : RiakObject) (v : PyVal) : RiakObject :=
  {| ob_mro := ob_mro o; _resolver := v; bucket := bucket o;
     key := key o; vclock := vclock o; siblings := siblings o |}.

(** Calls that reach the transport, with the keyword arguments as the
    client receives them. [get] declares [basic_quorum=None] and
    [notfound_ok=None]. *)
Inductive Call : Type :=
| client_put (w dw pw return_body if_none_match timeout : PyVal)
| client_get (r pr timeout basic_quorum notfound_ok : PyVal)
| client_delete (r w dw pr pw timeout : PyVal).

(** [self.client]: each call may rewrite the record it is handed and may
    raise. *)
Variable client : Call -> RiakObject -> RiakObject * result PyVal.

(** The record under operation and the trace of transport calls. *)
Record World : Type := {
  self : RiakObject;
  calls : list Call
}.

Definition M (A : Type) : Type := World -> World * result A.

Definition ret {A} (a : A) : M A := fun w => (w, Ok a).

Definition raise {A} (e : exn) : M A := fun w => (w, Raise e).

Definition bind {A B} (m : M A) (f : A -> M B) : M B :=
  fun w =>
    match m w with
    | (w', Ok a) => f a w'
    | (w', Raise e) => (w', Raise e)
    end.

Notation "x <- m ;; k" := (bind m (fun x => k))
  (at level 61, m at next level, right associativity).
Notation "m ;;; k" := (bind m (fun _ => k))
  (at level 61, right associativity).

Definition get_siblings : M (list RiakContent) :=
  fun w => (w, Ok (siblings (self w))).

Definition put_siblings (l : list RiakContent) : M unit :=
  fun w => ({| self := set_siblings (self w) l; calls := calls w |}, Ok tt).

Definition ret_self : M RiakObject := fun w => (w, Ok (self w)).

(** [f(self.siblings[0])]: the first sibling is mutated in place. *)
Definition on_sibling0 {A} (f : RiakContent -> RiakContent * result A) : M A :=
  fun w =>
    match siblings (self w) with
    | [] => (w, Raise (OtherError "IndexError: list index out of range"))
    | c :: rest =>
        let '(c', r) := f c in
        ({| self := set_siblings (self w) (c' :: rest); calls := calls w |}, r)
    end.

Definition call_client (c : Call) : M PyVal :=
  fun w =>
    let '(o, r) := client c (self w) in
    ({| self := o; calls := calls w ++ [c] |}, r).

(** *** content_property *)

Definition _setter (name : string) (value : PyVal) : M unit :=
  l <- get_siblings ;;
  (if Nat.eqb (List.length l) 0 then put_siblings [RiakContent_new] else ret tt) ;;;
  l <- get_siblings ;;
  if negb (Nat.eqb (List.length l) 1) then raise (ConflictError "")
  else on_sibling0 (content_setattr name value).

Definition _getter (name : string) : M PyVal :=
  l <- get_siblings ;;
  if Nat.eqb (List.length l) 0 then ret PyNone
  else if negb (Nat.eqb (List.length l) 1) then raise (ConflictError "")
  else on_sibling0 (content_getattr name).

Definition content_property (name : string) : M PyVal * (PyVal -> M unit) :=
  (_getter name, _setter name).

(** *** content_method *)

Definition _delegate (name : string) (args : list PyVal) : M PyVal :=
  l <- get_siblings ;;
  if negb (Nat.eqb (List.length l) 1) then raise (ConflictError "")
  else on_sibling0 (content_call name args).

Definition content_method (name : string) : list PyVal -> M PyVal :=
  _delegate name.

(** *** __init__ *)

(** The text of the [ValueError]: None stands between double quotes. *)
Definition dquote : Ascii.ascii := Ascii.ascii_of_nat 34.

Definition empty_key_msg : string :=
  "Key name must either be "
  ++ String dquote ("None" ++ String dquote " or a non-empty string.").

Definition is_ascii (s : string) : bool :=
  forallb (fun b => byte_val b <? 128) (list_byte_of_string s).

Definition __init__ (PY2 : bool) (mro : list string) (bucket0 : RiakBucket)
    (key0 : option string) : result RiakObject :=
  if PY2 && match key0 with Some k => negb (is_ascii k) | None => false end
  then Raise (TypeError "Unicode keys are not supported.")
  else if match key0 with Some k => Nat.eqb (String.length k) 0
          | None => false end
  then Raise (ValueError empty_key_msg)
  else Ok {| ob_mro := mro; _resolver := PyNone; bucket := bucket0;
             key := key0; vclock := None; siblings := [RiakContent_new] |}.

(** *** The delegated attributes and methods *)

Definition data := content_property "data".
Definition encoded_data := content_property "encoded_data".
Definition charset := content_property "charset".
Definition content_type := content_property "content_type".
Definition content_encoding := content_property "content_encoding".
Definition last_modified := content_property "last_modified".
Definition etag := content_property "etag".
Definition usermeta := content_property "usermeta".
Definition links := content_property "links".
Definition indexes := content_property "indexes".

Definition add_index := content_method "add_index".
Definition remove_index := content_method "remove_index".
Definition remove_indexes := remove_index.
Definition set_index := content_method "set_index".
Definition add_link := content_method "add_link".

Definition properties : list (M PyVal * (PyVal -> M unit)) :=
  [data; encoded_data; charset; content_type; content_encoding;
   last_modified; etag; usermeta; links; indexes].

Definition methods : list (list PyVal -> M PyVal) :=
  [add_index; remove_index; remove_indexes; set_index; add_link].

(** *** exists *)

Definition _exists (o : RiakObject) : bool :=
  if Nat.eqb (List.length (siblings o)) 0 then false
  else if Nat.ltb 1 (List.length (siblings o)) then true
  else match siblings o with
       | c :: _ => content_exists c
       | [] => false
       end.

(** *** resolver *)

Definition _get_resolver (o : RiakObject) : result PyVal :=
  if callable (_resolver o) then Ok (_resolver o)
  else if is_None (_resolver o) then Ok (bucket_resolver (bucket o))
  else Raise (TypeError "resolver is not a function").

Definition _set_resolver (value : PyVal) : M unit :=
  fun w =>
    if is_None value || callable value
    then ({| self := set__resolver (self w) value; calls := calls w |}, Ok tt)
    else (w, Raise (TypeError "resolver is not a function")).

(** *** store, reload, delete, clear *)

Definition store (w dw pw return_body if_none_match timeout : PyVal)
  : M RiakObject :=
  l <- get_siblings ;;
  if negb (Nat.eqb (List.length l) 1)
  then raise (ConflictError
    "Attempting to store an invalid object, resolve the siblings first")
  else
    call_client (client_put w dw pw return_body if_none_match timeout) ;;;
    ret_self.

Definition reload (r pr timeout basic_quorum notfound_ok : PyVal)
  : M RiakObject :=
  call_client (client_get r pr timeout PyNone PyNone) ;;;
  ret_self.

Definition clear : M RiakObject :=
  put_siblings [] ;;;
  ret_self.

Definition delete (r w dw pr pw timeout : PyVal) : M RiakObject :=
  call_client (client_delete r w dw pr pw timeout) ;;;
  clear ;;;
  ret_self.

(** *** __hash__, __eq__, __ne__ *)

Section Identity.
Variable rt : PyHash.

Definition hash_key (k : option string) : Z :=
  match k with
  | None => hash_None rt
  | Some s => hash_str rt s
  end.

(** [VClock] inherits [object.__hash__]. *)
Definition hash_vclock (v : option VClock.VClock) : Z :=
  match v with
  | None => hash_None rt
  | Some c => object_hash rt (VClock.ob_id c)
  end.

Definition __hash__ (o : RiakObject) : Z :=
  hash_tuple rt [hash_key (key o); hash_bucket rt (bucket o);
                 hash_vclock (vclock o)].

(** The right operand of [==]: a record (of this class or a subclass) or
    some other value. *)
Inductive PyObject : Type :=
| Instance (o : RiakObject)
| Foreign (v : PyVal).

Definition __class__ (o : RiakObject) : string := hd "object"%string (ob_mro o).

Definition isinstance (other : PyObject) (cls : string) : bool :=
  match other with
  | Instance o => existsb (String.eqb cls) (ob_mro o)
  | Foreign _ => false
  end.

Definition __eq__ (o : RiakObject) (other : PyObject) : bool :=
  if isinstance other (__class__ o) then
    match other with
    | Instance o' => __hash__ o =? __hash__ o'
    | Foreign _ => false
    end
  else false.

Definition __ne__ (o : RiakObject) (other : PyObject) : bool :=
  if isinstance other (__class__ o) then
    match other with
    | Instance o' => negb (__hash__ o =? __hash__ o')
    | Foreign _ => true
    end
  else true.

End Identity.

End RiakObject.

Arguments Instance {content} o.
Arguments Foreign {content} v.

(** *** The operators [==] and [!=]

    Rich comparison tries the right operand's method first, with the
    operands swapped, when the right operand's type is a proper subclass of
    the left operand's type, and the left operand's method otherwise.
    [RiakObject.__eq__] and [__ne__] never return [NotImplemented], so the
    method tried first decides. *)

Section Operators.

Context {content : Content}.
Variable rt : PyHash.

(** [type(w)] is a proper subclass of [type(v)]. *)
Definition proper_subtype (w v : RiakObject) : bool :=
  negb (String.eqb (__class__ v) (__class__ w))
  && existsb (String.eqb (__class__ v)) (ob_mro w).

Definition py_eq (a : RiakObject) (other : PyObject) : bool :=
  match other with
  | Instance b =>
      if proper_subtype b a then __eq__ rt b (Instance a)
      else __eq__ rt a other
  | Foreign _ => __eq__ rt a other
  end.

Definition py_ne (a : RiakObject) (other : PyObject) : bool :=
  match other with
  | Instance b =>
      if proper_subtype b a then __ne__ rt b (Instance a)
      else __ne__ rt a other
  | Foreign _ => __ne__ rt a other
  end.

(** What a class hierarchy gives two objects: each has a class, the head of
    its MRO, and two different classes do not derive from each other. *)
Definition proper_hierarchy (a b : RiakObject) : Prop :=
  ob_mro a <> [] /\ ob_mro b <> []
  /\ (__class__ a <> __class__ b ->
      existsb (String.eqb (__class__ a)) (ob_mro b) = true ->
      existsb (String.eqb (__class__ b)) (ob_mro a) = false).

End Operators.

(** ** A reference interpreter: hashing as CPython 2.7 does on 64 bits *)

Module CPython27.

Definition wrap64 (z : Z) : Z :=
  let m := z mod 2 ^ 64 in if m <? 2 ^ 63 then m else m - 2 ^ 64.

Definition fix_minus1 (x : Z) : Z := if x =? -1 then -2 else x.

(** [string_hash], hash randomization off. *)
Definition string_hash (s : string) : Z :=
  match list_byte_of_string s with
  | [] => 0
  | (p0 :: _) as l =>
      let x := fold_left
                 (fun x c => wrap64 (Z.lxor (1000003 * x) (byte_val c)))
                 l (Z.shiftl (byte_val p0) 7) in
      fix_minus1 (Z.lxor x (Z.of_nat (List.length l)))
  end.

(** [_Py_HashPointer]: the address rotated right by four bits. *)
Definition _Py_HashPointer (p : Z) : Z :=
  let y := p mod 2 ^ 64 in
  fix_minus1 (wrap64 (Z.lor (Z.shiftr y 4) (Z.shiftl y 60))).

Fixpoint tuplehash_loop (items : list Z) (x mult : Z) : Z :=
  match items with
  | [] => x
  | y :: rest =>
      let len := Z.of_nat (List.length rest) in
      tuplehash_loop rest (wrap64 (Z.lxor x y * mult))
        (wrap64 (mult + (82520 + len + len)))
  end.

Definition tuplehash (items : list Z) : Z :=
  fix_minus1 (wrap64 (tuplehash_loop items 3430008 1000003 + 97531)).

(** The address of [None]. *)
Definition Py_None : Z := 9437184.

(** [RiakBucket.__hash__] is not part of this module; buckets hash by name
    here. *)
Definition hashing : PyHash :=
  {| hash_str := string_hash;
     hash_None := _Py_HashPointer Py_None;
     hash_bucket := fun b => string_hash (bucket_name b);
     object_hash := _Py_HashPointer;
     hash_tuple := tuplehash |}.

End CPython27.

(** ** A plain Version *)

Module Version.

Definition PyVal_eqb (a b : PyVal) : bool :=
  match a, b with
  | PyNone, PyNone => true
  | PyBool x, PyBool y => Bool.eqb x y
  | PyInt x, PyInt y => x =? y
  | PyStr x, PyStr y => String.eqb x y
  | PyBytes x, PyBytes y =>
      if list_eq_dec Byte.byte_eq_dec x y then true else false
  | PyFunc x, PyFunc y => String.eqb x y
  | _, _ => false
  end.

(** Modelled from the spec: [riak.content.RiakContent], the Version of the
    data model, is not in this module. Attributes are plain get/set; [links]
    are 3-tuples; [indexes] are name/value pairs; a tombstone is a flag. *)
Record Version : Type := {
  attrs : list (string * PyVal);
  link_set : list (PyVal * PyVal * PyVal);
  index_set : list (string * PyVal);
  tombstone : bool
}.

Definition fresh : Version :=
  {| attrs := []; link_set := []; index_set := []; tombstone := false |}.

Definition getattr (name : string) (v : Version)
  : Version * result PyVal :=
  (v, Ok match VClock.dict_get (attrs v) name with
         | Some x => x
         | None => PyNone
         end).

Definition setattr (name : string) (x : PyVal) (v : Version)
  : Version * result unit :=
  ({| attrs := (name, x) :: attrs v; link_set := link_set v;
      index_set := index_set v; tombstone := tombstone v |}, Ok tt).

Definition with_indexes (v : Version) (l : list (string * PyVal)) : Version :=
  {| attrs := attrs v; link_set := link_set v; index_set := l;
     tombstone := tombstone v |}.

Definition same_entry (n : string) (x : PyVal) (e : string * PyVal) : bool :=
  String.eqb (fst e) n && PyVal_eqb (snd e) x.

(** [add_index] appends unless the name already holds that value;
    [set_index] replaces all values of a name; removal of an absent entry
    does nothing. *)
Definition call (name : string) (args : list PyVal) (v : Version)
  : Version * result PyVal :=
  match name, args with
  | "add_link"%string, [b; k; t] =>
      ({| attrs := attrs v; link_set := link_set v ++ [(b, k, t)];
          index_set := index_set v; tombstone := tombstone v |}, Ok PyNone)
  | "add_index"%string, [PyStr n; x] =>
      (if existsb (same_entry n x) (index_set v) then v
       else with_indexes v (index_set v ++ [(n, x)]), Ok PyNone)
  | "set_index"%string, [PyStr n; x] =>
      (with_indexes v
         (filter (fun e => negb (String.eqb (fst e) n)) (index_set v)
          ++ [(n, x)]), Ok PyNone)
  | "remove_index"%string, [PyStr n] =>
      (with_indexes v
         (filter (fun e => negb (String.eqb (fst e) n)) (index_set v)),
       Ok PyNone)
  | "remove_index"%string, [PyStr n; x] =>
      (with_indexes v
         (filter (fun e => negb (same_entry n x e)) (index_set v)),
       Ok PyNone)
  | _, _ => (v, Raise (TypeError "bad call"))
  end.

Definition content : Content :=
  {| RiakContent := Version;
     RiakContent_new := fresh;
     content_getattr := getattr;
     content_setattr := setattr;
     content_call := call;
     content_exists := fun v => negb (tombstone v) |}.

End Version.

Definition no_conflict_msg : string := "".
Definition store_conflict_msg : string :=
  "Attempting to store an invalid object, resolve the siblings first".

(** What the delegators, [clear] and the resolver setter leave alone: the
    class, the resolver, the bucket, the key and the vector clock. *)
Definition same_header {content : Content} (o o' : RiakObject) : Prop :=
  ob_mro o = ob_mro o' /\ _resolver o = _resolver o'
  /\ bucket o = bucket o' /\ key o = key o' /\ vclock o = vclock o'.

(** The record-level resolver is [None] or a callable. *)
Definition resolver_ok {content : Content} (o : RiakObject) : bool :=
  is_None (_resolver o) || callable (_resolver o).

(** The keys [__init__] lets through. *)
Definition key_ok (PY2 : bool) (k : option string) : Prop :=
  match k with
  | None => True
  | Some s => s <> ""%string /\ (PY2 = true -> is_ascii s = true)
  end.

(** ** Sample records and transports *)

Module Sample.

Definition Obj : Type := @RiakObject Version.content.

Definition bucket_b : RiakBucket :=
  {| bucket_name := "b"; bucket_resolver := PyFunc "default_resolver" |}.

Definition with_data (d : string) : Version.Version :=
  fst (Version.setattr "data" (PyStr d) Version.fresh).

Definition a_tombstone : Version.Version :=
  {| Version.attrs := []; Version.link_set := []; Version.index_set := [];
     Version.tombstone := true |}.

Definition clock_T : VClock.VClock :=
  VClock.mk 140234866512976 (list_byte_of_string "abc").

(** The same clock received a second time: another object, equal bytes. *)
Definition clock_T' : VClock.VClock :=
  VClock.mk 140234866513104 (list_byte_of_string "abc").

Definition record (vc : option VClock.VClock) (l : list Version.Version)
  : Obj :=
  @Build_RiakObject Version.content ["RiakObject"; "object"]%string PyNone
    bucket_b (Some "k1"%string) vc l.

Definition world (o : Obj) : World := {| self := o; calls := [] |}.

Definition conflicted : Obj :=
  record (Some clock_T) [with_data "a"; with_data "b"].

Definition resolved : Obj := record (Some clock_T) [with_data "a"].

Definition empty : Obj := record None [].

(** A transport that answers every call and leaves the record alone. *)
Definition quiet_client (c : Call) (o : Obj) : Obj * result PyVal :=
  (o, Ok PyNone).

(** A transport whose calls fail. *)
Definition failing_client (c : Call) (o : Obj) : Obj * result PyVal :=
  (o, Raise (OtherError "RiakError: no nodes available")).

(** A record of a subclass of [RiakObject]. *)
Definition subclass_record : Obj :=
  @Build_RiakObject Version.content
    ["MyObject"; "RiakObject"; "object"]%string PyNone bucket_b
    (Some "k1"%string) (Some clock_T) [with_data "a"].

(** A transport whose [get] comes back with two siblings. *)
Definition sibling_client (c : Call) (o : Obj) : Obj * result PyVal :=
  match c with
  | client_get _ _ _ _ _ =>
      (set_siblings o [with_data "a"; with_data "b"], Ok PyNone)
  | _ => (o, Ok PyNone)
  end.

End Sample.

(** ** Properties of the delegators and of the record's life cycle *)

Section Delegation.

Context {content : Content}.
Variable client : Call -> RiakObject -> RiakObject * result PyVal.

Ltac run := unfold bind, get_siblings, put_siblings, raise, ret, ret_self,
  on_sibling0, call_client; simpl.

Lemma length_gt1 {A} (l : list A) :
  (1 < List.length l)%nat ->
  Nat.eqb (List.length l) 0 = false /\ Nat.eqb (List.length l) 1 = false.
Proof.
  intros H; split; apply Nat.eqb_neq; lia.
Qed.

Lemma _getter_conflict name w :
  (1 < List.length (siblings (self w)))%nat ->
  _getter name w = (w, Raise (ConflictError no_conflict_msg)).
Proof.
  intros H. destruct (length_gt1 _ H) as [H0 H1].
  unfold _getter. run. rewrite H0, H1. reflexivity.
Qed.

Lemma _setter_conflict name v w :
  (1 < List.length (siblings (self w)))%nat ->
  _setter name v w = (w, Raise (ConflictError no_conflict_msg)).
Proof.
  intros H. destruct (length_gt1 _ H) as [H0 H1].
  unfold _setter. run. rewrite H0. simpl. rewrite H1. reflexivity.
Qed.

Lemma _delegate_not_one name args w :
  List.length (siblings (self w)) <> 1%nat ->
  _delegate name args w = (w, Raise (ConflictError no_conflict_msg)).
Proof.
  intros H. apply Nat.eqb_neq in H.
  unfold _delegate. run. rewrite H. reflexivity.
Qed.

Lemma _delegate_ok_one name args w :
  is_ok (snd (_delegate name args w)) = true ->
  List.length (siblings (self w)) = 1%nat.
Proof.
  intros H.
  destruct (Nat.eq_dec (List.length (siblings (self w))) 1) as [E | E];
    [exact E | ].
  rewrite (_delegate_not_one _ _ _ E) in H. discriminate H.
Qed.

Lemma properties_names :
  properties =
  map content_property
    ["data"; "encoded_data"; "charset"; "content_type"; "content_encoding";
     "last_modified"; "etag"; "usermeta"; "links"; "indexes"]%string.
Proof. reflexivity. Qed.

Lemma methods_names :
  methods =
  map content_method
    ["add_index"; "remove_index"; "remove_index"; "set_index";
     "add_link"]%string.
Proof. reflexivity. Qed.

Lemma store_not_one a1 a2 a3 a4 a5 a6 w :
  List.length (siblings (self w)) <> 1%nat ->
  store client a1 a2 a3 a4 a5 a6 w
  = (w, Raise (ConflictError store_conflict_msg)).
Proof.
  intros H. apply Nat.eqb_neq in H.
  unfold store. run. rewrite H. reflexivity.
Qed.

Lemma reload_run r pr timeout bq nf w :
  reload client r pr timeout bq nf w
  = let '(o, res) := client (client_get r pr timeout PyNone PyNone) (self w) in
    let w' := {| self := o;
                 calls := calls w
                          ++ [client_get r pr timeout PyNone PyNone] |} in
    match res with
    | Ok _ => (w', Ok o)
    | Raise e => (w', Raise e)
    end.
Proof.
  unfold reload. run.
  destruct (client _ (self w)) as [o [v | e]]; reflexivity.
Qed.

Lemma delete_run r w0 dw pr pw timeout w :
  delete client r w0 dw pr pw timeout w
  = let c := client_delete r w0 dw pr pw timeout in
    let '(o, res) := client c (self w) in
    match res with
    | Ok _ => ({| self := set_siblings o []; calls := calls w ++ [c] |},
               Ok (set_siblings o []))
    | Raise e => ({| self := o; calls := calls w ++ [c] |}, Raise e)
    end.
Proof.
  unfold delete, clear. run.
  destruct (client _ (self w)) as [o [v | e]]; reflexivity.
Qed.

(** C1. A record holding more than one Version refuses every delegated
    getter and setter, every structural mutator and [store] with
    [ConflictError], leaving the record as it was; [reload] and [delete] do
    not look at the number of Versions and return the record whenever the
    transport call returns. *)
Theorem conflict_refuses_access (w : World) :
  (1 < List.length (siblings (self w)))%nat ->
  (forall p, In p properties ->
     fst p w = (w, Raise (ConflictError no_conflict_msg))
     /\ forall v, snd p v w = (w, Raise (ConflictError no_conflict_msg)))
  /\ (forall m, In m [add_link; add_index; set_index; remove_index] ->
       forall args, m args w = (w, Raise (ConflictError no_conflict_msg)))
  /\ (forall a1 a2 a3 a4 a5 a6,
       store client a1 a2 a3 a4 a5 a6 w
       = (w, Raise (ConflictError store_conflict_msg)))
  /\ (forall r pr timeout bq nf o v,
       client (client_get r pr timeout PyNone PyNone) (self w) = (o, Ok v) ->
       snd (reload client r pr timeout bq nf w) = Ok o)
  /\ (forall r w0 dw pr pw timeout o v,
       client (client_delete r w0 dw pr pw timeout) (self w) = (o, Ok v) ->
       snd (delete client r w0 dw pr pw timeout w) = Ok (set_siblings o [])).
Proof.
  intros H. repeat split.
  - rewrite properties_names in H0. apply in_map_iff in H0.
    destruct H0 as [name [<- _]]. simpl. now apply _getter_conflict.
  - intros v. rewrite properties_names in H0. apply in_map_iff in H0.
    destruct H0 as [name [<- _]]. simpl. now apply _setter_conflict.
  - intros m Hm args.
    assert (E : List.length (siblings (self w)) <> 1%nat) by lia.
    simpl in Hm.
    destruct Hm as [<- | [<- | [<- | [<- | []]]]];
      apply _delegate_not_one; exact E.
  - intros. apply store_not_one. lia.
  - intros r pr timeout bq nf o v E. rewrite reload_run, E. reflexivity.
  - intros r w0 dw pr pw timeout o v E. rewrite delete_run. simpl.
    rewrite E. reflexivity.
Qed.

(** C2. Whatever [basic_quorum] and [notfound_ok] are given to [reload],
    the transport's [get] is called with [r], [pr] and [timeout] only, so it
    sees both flags at their default [None]. *)
Theorem reload_drops_quorum_flags r pr timeout bq nf (w : World) :
  calls (fst (reload client r pr timeout bq nf w))
  = calls w ++ [client_get r pr timeout PyNone PyNone].
Proof.
  rewrite reload_run.
  destruct (client _ (self w)) as [o [v | e]]; reflexivity.
Qed.

(** C3. [exists] is false exactly when there is no Version, or a single
    Version that is a tombstone; it is true as soon as there are two
    Versions, whatever they are, and for a single live Version. *)
Theorem exists_iff (o : RiakObject) :
  (_exists o = false <->
     List.length (siblings o) = 0%nat
     \/ exists c, siblings o = [c] /\ content_exists c = false)
  /\ ((1 < List.length (siblings o))%nat -> _exists o = true)
  /\ (forall c, siblings o = [c] -> content_exists c = true ->
       _exists o = true).
Proof.
  unfold _exists.
  destruct (siblings o) as [| c [| c' l]]; simpl.
  - split; [ | split].
    + split; auto.
    + lia.
    + intros c E; discriminate E.
  - split; [ | split].
    + split.
      * intros E. right. exists c. auto.
      * intros [E | [c0 [E1 E2]]]; [discriminate E | ].
        injection E1 as ->. exact E2.
    + lia.
    + intros c0 E1 E2. injection E1 as ->. exact E2.
  - split; [ | split].
    + split; [discriminate | ].
      intros [E | [c0 [E1 E2]]]; discriminate.
    + reflexivity.
    + intros c0 E; discriminate E.
Qed.

(** C5. On a record without Versions a delegated getter returns [None] and
    changes nothing; a delegated setter installs one fresh Version, sets the
    attribute on it, and the record then holds exactly that one Version. *)
Theorem empty_record_access (w : World) :
  siblings (self w) = [] ->
  forall p, In p properties ->
    exists name, p = content_property name
    /\ fst p w = (w, Ok PyNone)
    /\ forall v,
         snd p v w
         = ({| self :=
                 set_siblings (self w)
                   [fst (content_setattr name v RiakContent_new)];
               calls := calls w |},
            snd (content_setattr name v RiakContent_new))
         /\ List.length (siblings (self (fst (snd p v w)))) = 1%nat.
Proof.
  intros E p Hp. rewrite properties_names in Hp. apply in_map_iff in Hp.
  destruct Hp as [name [<- _]]. exists name. split; [reflexivity | ].
  simpl. split.
  - unfold _getter. run. rewrite E. reflexivity.
  - intros v.
    assert (R : _setter name v w
      = ({| self := set_siblings (self w)
                      [fst (content_setattr name v RiakContent_new)];
            calls := calls w |},
         snd (content_setattr name v RiakContent_new))).
    { unfold _setter. run. rewrite E. simpl.
      destruct (content_setattr name v RiakContent_new) as [c' r].
      reflexivity. }
    rewrite R. split; reflexivity.
Qed.

(** C6 (as the code has it). When the transport's [delete] call returns,
    with whatever value and however it rewrote the record, [delete] leaves
    no Version, [exists] is false and the record itself is returned; when
    the call raises, the exception goes to the caller. *)
Theorem delete_clears_when_transport_returns r w0 dw pr pw timeout
    (w : World) :
  let c := client_delete r w0 dw pr pw timeout in
  let out := delete client r w0 dw pr pw timeout w in
  (forall o v, client c (self w) = (o, Ok v) ->
     siblings (self (fst out)) = []
     /\ _exists (self (fst out)) = false
     /\ snd out = Ok (self (fst out)))
  /\ (forall o e, client c (self w) = (o, Raise e) -> snd out = Raise e).
Proof.
  intros c out. subst c out. rewrite delete_run. simpl. split.
  - intros o v E. rewrite E. simpl. repeat split.
  - intros o e E. rewrite E. reflexivity.
Qed.

(** C9. Reading [resolver] gives the record's own resolver when it is
    callable and the bucket's when the record has none, and raises
    [TypeError] otherwise; writing it accepts [None] or a callable and
    raises the same [TypeError] for anything else. *)
Theorem resolver_get_set (w : World) :
  let o := self w in
  (callable (_resolver o) = true -> _get_resolver o = Ok (_resolver o))
  /\ (_resolver o = PyNone ->
       _get_resolver o = Ok (bucket_resolver (bucket o)))
  /\ (callable (_resolver o) = false -> _resolver o <> PyNone ->
       _get_resolver o = Raise (TypeError "resolver is not a function"))
  /\ (forall value, value = PyNone \/ callable value = true ->
       _set_resolver value w
       = ({| self := set__resolver o value; calls := calls w |}, Ok tt)
       /\ _resolver (self (fst (_set_resolver value w))) = value)
  /\ (forall value, value <> PyNone -> callable value = false ->
       _set_resolver value w
       = (w, Raise (TypeError "resolver is not a function"))).
Proof.
  intros o. unfold _get_resolver, _set_resolver. repeat split.
  - intros E. rewrite E. reflexivity.
  - intros E. rewrite E. reflexivity.
  - intros E N. rewrite E.
    destruct (_resolver o); simpl; try reflexivity; congruence.
  - destruct H as [-> | E]; [reflexivity | ].
    rewrite E, orb_true_r. reflexivity.
  - destruct H as [-> | E]; [reflexivity | ].
    rewrite E, orb_true_r. reflexivity.
  - intros value N E. rewrite E.
    destruct value; simpl; try reflexivity; congruence.
Qed.

(** C10. On a record without Versions the structural mutators raise
    [ConflictError] and install nothing; none of them returns unless the
    record holds exactly one Version. *)
Theorem mutators_need_one_version (w : World) m args :
  In m [add_link; add_index; set_index; remove_index; remove_indexes] ->
  (siblings (self w) = [] ->
     m args w = (w, Raise (ConflictError no_conflict_msg)))
  /\ (is_ok (snd (m args w)) = true ->
       List.length (siblings (self w)) = 1%nat).
Proof.
  intros Hm. simpl in Hm.
  destruct Hm as [<- | [<- | [<- | [<- | [<- | []]]]]]; split;
    try (intros E; apply _delegate_not_one; rewrite E; discriminate);
    apply _delegate_ok_one.
Qed.

End Delegation.

(** ** Round trip of the base64 codec *)

Module DecoderFacts.

Import binascii Decoder.

Lemma all_bytes_complete (b : byte) : In b all_bytes.
Proof.
  unfold all_bytes. apply in_map_iff. exists (Byte.to_nat b). split.
  - destruct b; reflexivity.
  - apply in_seq. pose proof (Byte.to_nat_bounded b). lia.
Qed.

Lemma forall_bytes (P : byte -> bool) :
  forallb P all_bytes = true -> forall b, P b = true.
Proof.
  intros H b. rewrite forallb_forall in H. apply H, all_bytes_complete.
Qed.

Lemma forall_bytes2 (P : byte -> byte -> bool) :
  forallb (fun a => forallb (P a) all_bytes) all_bytes = true ->
  forall a b, P a b = true.
Proof.
  intros H a b.
  apply (forall_bytes (P a)). apply (forall_bytes _ H).
Qed.

Lemma state_eqb_eq a b : state_eqb a b = true -> a = b.
Proof.
  destruct a as [[q lb] lc], b as [[q' lb'] lc']. unfold state_eqb.
  rewrite !andb_true_iff, !Z.eqb_eq. intros [[-> ->] ->]. reflexivity.
Qed.

Lemma out_eqb_eq a b : out_eqb a b = true -> a = b.
Proof.
  destruct a as [o st], b as [o' st']. unfold out_eqb. simpl.
  destruct (list_eq_dec Byte.byte_eq_dec o o') as [-> | _]; simpl.
  - intros H. apply state_eqb_eq in H. subst. reflexivity.
  - discriminate.
Qed.

Lemma first_ok x y : check_first x y = true.
Proof. revert x y. apply forall_bytes2. vm_compute. reflexivity. Qed.

Lemma third_ok y z : check_third y z = true.
Proof. revert y z. apply forall_bytes2. vm_compute. reflexivity. Qed.

Lemma fourth_ok z : check_fourth z = true.
Proof. revert z. apply forall_bytes. vm_compute. reflexivity. Qed.

Lemma tail1_ok x : check_tail1 x = true.
Proof. revert x. apply forall_bytes. vm_compute. reflexivity. Qed.

Lemma tail2_ok y : check_tail2 y = true.
Proof. revert y. apply forall_bytes. vm_compute. reflexivity. Qed.

(** A data character makes the loop take one [step]. *)
Lemma a2b_loop_data ch rest q lb lc :
  is_data ch = true ->
  a2b_loop (ch :: rest) q lb lc
  = let '(o, st) := step (q, lb, lc) ch in
    let '(out, e) := loop_from st rest in
    (o ++ out, e).
Proof.
  unfold is_data. rewrite !andb_true_iff, !negb_true_iff.
  intros [[H1 H2] H3].
  cbn [a2b_loop step loop_from]. cbv zeta.
  rewrite H1, H2, H3.
  destruct (lb + 6 >=? 8); unfold loop_from;
    destruct (a2b_loop rest _ _ _) as [out e]; reflexivity.
Qed.

Lemma loop_from_run s : forall st rest,
  forallb is_data s = true ->
  loop_from st (s ++ rest)
  = let '(o, st') := run st s in
    let '(out, e) := loop_from st' rest in
    (o ++ out, e).
Proof.
  induction s as [| ch s IH]; intros st rest H.
  - simpl. destruct (loop_from st rest). reflexivity.
  - simpl in H. apply andb_true_iff in H. destruct H as [Hc Hs].
    destruct st as [[q lb] lc].
    change (loop_from (q, lb, lc) ((ch :: s) ++ rest))
      with (a2b_loop (ch :: s ++ rest) q lb lc).
    rewrite (a2b_loop_data _ _ _ _ _ Hc).
    cbn [run]. destruct (step (q, lb, lc) ch) as [o st'].
    rewrite (IH st' rest Hs).
    destruct (run st' s) as [o' st''].
    destruct (loop_from st'' rest) as [out e].
    rewrite app_assoc. reflexivity.
Qed.

Lemma run_app s1 : forall st s2,
  run st (s1 ++ s2)
  = let '(o1, st1) := run st s1 in
    let '(o2, st2) := run st1 s2 in
    (o1 ++ o2, st2).
Proof.
  induction s1 as [| ch s1 IH]; intros st s2.
  - simpl. destruct (run st s2). reflexivity.
  - simpl. destruct (step st ch) as [o st']. rewrite IH.
    destruct (run st' s1) as [o1 st1]. destruct (run st1 s2) as [o2 st2].
    rewrite app_assoc. reflexivity.
Qed.

Ltac checked H :=
  unfold check_first, check_third, check_fourth, check_tail1, check_tail2
    in H;
  rewrite !andb_true_iff in H;
  repeat match type of H with _ /\ _ => destruct H as [H ?] end.

(** Three bytes: four data characters that give the bytes back and leave
    the machine where it started. *)
Lemma quad_data x y z :
  forallb is_data [e1 x; e2 x y; e3 y z; e4 z] = true.
Proof.
  pose proof (first_ok x y) as A. pose proof (third_ok y z) as B.
  pose proof (fourth_ok z) as C. checked A. checked B. checked C.
  simpl. rewrite !andb_true_iff. auto.
Qed.

Lemma quad_run x y z :
  run (0, 0, 0) [e1 x; e2 x y; e3 y z; e4 z] = ([x; y; z], (0, 0, 0)).
Proof.
  pose proof (first_ok x y) as A. pose proof (third_ok y z) as B.
  pose proof (fourth_ok z) as C. checked A. checked B. checked C.
  change [e1 x; e2 x y; e3 y z; e4 z]
    with ([e1 x; e2 x y] ++ [e3 y z] ++ [e4 z]).
  rewrite run_app.
  match goal with H : out_eqb (run (0, 0, 0) _) _ = true |- _ =>
    rewrite (out_eqb_eq _ _ H) end.
  rewrite run_app.
  match goal with H : out_eqb (run (2, 4, _) _) _ = true |- _ =>
    rewrite (out_eqb_eq _ _ H) end.
  match goal with H : out_eqb (run (3, 2, _) _) _ = true |- _ =>
    rewrite (out_eqb_eq _ _ H) end.
  reflexivity.
Qed.

Lemma b2a_base64_three x y z rest :
  b2a_base64 (x :: y :: z :: rest)
  = [e1 x; e2 x y; e3 y z; e4 z] ++ b2a_base64 rest.
Proof. reflexivity. Qed.

Lemma decode_one x : a2b_loop (b2a_base64 [x]) 0 0 0 = ([x], 0).
Proof.
  pose proof (tail1_ok x) as A. checked A.
  change (b2a_base64 [x]) with ([e1 x; e2_tail x] ++ [pad; pad]).
  change (a2b_loop ?s 0 0 0) with (loop_from (0, 0, 0) s).
  rewrite loop_from_run by (simpl; rewrite !andb_true_iff; auto).
  match goal with H : out_eqb _ _ = true |- _ =>
    rewrite (out_eqb_eq _ _ H) end.
  reflexivity.
Qed.

Lemma decode_two x y : a2b_loop (b2a_base64 [x; y]) 0 0 0 = ([x; y], 0).
Proof.
  pose proof (first_ok x y) as A. pose proof (tail2_ok y) as B.
  checked A. checked B.
  change (b2a_base64 [x; y])
    with (([e1 x; e2 x y] ++ [e3_tail y]) ++ [pad]).
  change (a2b_loop ?s 0 0 0) with (loop_from (0, 0, 0) s).
  rewrite loop_from_run by (simpl; rewrite !andb_true_iff; auto).
  rewrite run_app.
  match goal with H : out_eqb (run (0, 0, 0) _) _ = true |- _ =>
    rewrite (out_eqb_eq _ _ H) end.
  match goal with H : out_eqb (run (2, 4, _) _) _ = true |- _ =>
    rewrite (out_eqb_eq _ _ H) end.
  reflexivity.
Qed.

Lemma decode_three x y z rest :
  a2b_loop (b2a_base64 rest) 0 0 0 = (rest, 0) ->
  a2b_loop (b2a_base64 (x :: y :: z :: rest)) 0 0 0
  = (x :: y :: z :: rest, 0).
Proof.
  intros IH. rewrite b2a_base64_three.
  change (a2b_loop ?s 0 0 0) with (loop_from (0, 0, 0) s).
  rewrite loop_from_run by apply quad_data.
  rewrite quad_run. cbn [loop_from]. rewrite IH. reflexivity.
Qed.

(** The loop reads back what [b2a_base64] wrote and ends with no bits
    left over. *)
Lemma a2b_loop_b2a_base64 (s : bytes) :
  a2b_loop (b2a_base64 s) 0 0 0 = (s, 0).
Proof.
  enough (H : a2b_loop (b2a_base64 s) 0 0 0 = (s, 0)
              /\ (forall x, a2b_loop (b2a_base64 (x :: s)) 0 0 0
                             = (x :: s, 0))
              /\ (forall x y, a2b_loop (b2a_base64 (x :: y :: s)) 0 0 0
                               = (x :: y :: s, 0))) by apply H.
  induction s as [| a s [IH0 [IH1 IH2]]].
  - split; [reflexivity | split].
    + apply decode_one.
    + apply decode_two.
  - split; [apply IH1 | split].
    + intros x. apply IH2.
    + intros x y. apply decode_three, IH0.
Qed.

Lemma a2b_b2a_base64 (s : bytes) : a2b_base64 (b2a_base64 s) = Ok s.
Proof.
  unfold a2b_base64. rewrite a2b_loop_b2a_base64. reflexivity.
Qed.

End DecoderFacts.

(** ** Properties of [VClock] *)

Section VClockFacts.

Variable PY2 : bool.

Lemma unsupported_encoding (e : string) (i : Z) (b : bytes)
    (v : VClock.VClock) :
  ~ supported e ->
  VClock.__init__ PY2 i b e = Raise (KeyError e)
  /\ VClock.encode v e
     = Raise (ValueError (e ++ " is not a valid vector clock encoding")).
Proof.
  intros N. unfold supported in N.
  assert (E1 : String.eqb "base64" e = false)
    by (apply String.eqb_neq; intros E; apply N; left; now rewrite E).
  assert (E2 : String.eqb "binary" e = false)
    by (apply String.eqb_neq; intros E; apply N; right; now rewrite E).
  unfold VClock.__init__, VClock.encode, VClock._decoders, VClock._encoders.
  cbn [VClock.dict_get]. rewrite E1, E2. split; reflexivity.
Qed.

Lemma decode_ok_supported (e : string) (i : Z) (b : bytes)
    (v : VClock.VClock) :
  VClock.__init__ PY2 i b e = Ok v -> supported e /\ VClock.ob_id v = i.
Proof.
  unfold VClock.__init__, VClock._decoders, supported. cbn [VClock.dict_get].
  destruct (String.eqb_spec "base64" e) as [<- | _].
  - destruct (base64.b64decode PY2 b); [ | discriminate].
    intros [= <-]. auto.
  - destruct (String.eqb_spec "binary" e) as [<- | _]; [ | discriminate].
    intros [= <-]. auto.
Qed.

Lemma encode_then_decode (e : string) (j : Z) (v : VClock.VClock) :
  supported e ->
  exists y, VClock.encode v e = Ok y
            /\ VClock.__init__ PY2 j y e = Ok (VClock.mk j (VClock._vclock v)).
Proof.
  intros [-> | ->].
  - exists (binascii.b2a_base64 (VClock._vclock v)). split; [reflexivity | ].
    unfold VClock.__init__. cbn [VClock._decoders VClock.dict_get String.eqb
      Ascii.eqb Bool.eqb]. unfold base64.b64decode.
    rewrite DecoderFacts.a2b_b2a_base64. reflexivity.
  - exists (VClock._vclock v). split; reflexivity.
Qed.

(** C7. Decoding with the unsupported name "hex" raises the [KeyError] of
    the failed dictionary lookup, while encoding with it raises the
    [ValueError] that [encode] builds: two different errors. *)
Theorem hex_decode_KeyError_encode_ValueError (i : Z) (b : bytes)
    (v : VClock.VClock) :
  VClock.__init__ PY2 i b "hex" = Raise (KeyError "hex")
  /\ VClock.encode v "hex"
     = Raise (ValueError "hex is not a valid vector clock encoding")
  /\ VClock.__init__ PY2 i b "hex"
     <> Raise (ValueError "hex is not a valid vector clock encoding").
Proof.
  assert (N : ~ supported "hex") by (intros [E | E]; discriminate E).
  destruct (unsupported_encoding "hex" i b v N) as [A B].
  rewrite A. split; [reflexivity | split; [exact B | discriminate]].
Qed.

(** C8. A clock decoded from [b] under [e1], encoded under a supported
    [e2] and decoded again under [e2], has the raw bytes of the first
    decoding. *)
Theorem decode_encode_decode (e1 e2 : string) (b : bytes) (i j : Z)
    (v : VClock.VClock) :
  supported e2 ->
  VClock.__init__ PY2 i b e1 = Ok v ->
  supported e1
  /\ exists y v',
       VClock.encode v e2 = Ok y
       /\ VClock.__init__ PY2 j y e2 = Ok v'
       /\ VClock._vclock v' = VClock._vclock v.
Proof.
  intros S2 D. split; [apply (decode_ok_supported _ _ _ _ D) | ].
  destruct (encode_then_decode e2 j v S2) as [y [E I]].
  exists y, (VClock.mk j (VClock._vclock v)). auto.
Qed.

End VClockFacts.

(** ** Properties of [__eq__] *)

Section IdentityFacts.

Context {content : Content}.
Variable rt : PyHash.

Lemma same_identity_same_hash (a b : RiakObject) :
  key a = key b -> bucket a = bucket b ->
  option_map VClock.ob_id (vclock a) = option_map VClock.ob_id (vclock b) ->
  __hash__ rt a = __hash__ rt b.
Proof.
  intros K B V. unfold __hash__. rewrite K, B. do 3 f_equal.
  unfold hash_vclock.
  destruct (vclock a), (vclock b); simpl in V; congruence.
Qed.

(** The method [__eq__] on its own. *)
Lemma eq_method_is_hash_equality (a : RiakObject) (other : PyObject) :
  (__eq__ rt a other = true <->
     exists b, other = Instance b
               /\ isinstance other (__class__ a) = true
               /\ __hash__ rt a = __hash__ rt b)
  /\ (forall b, other = Instance b ->
        isinstance other (__class__ a) = true ->
        key a = key b -> bucket a = bucket b ->
        option_map VClock.ob_id (vclock a)
        = option_map VClock.ob_id (vclock b) ->
        __eq__ rt a other = true)
  /\ (isinstance other (__class__ a) = false -> __eq__ rt a other = false)
  /\ __ne__ rt a other = negb (__eq__ rt a other).
Proof.
  unfold __eq__, __ne__. split; [ | split; [ | split]].
  - split.
    + destruct (isinstance other (__class__ a)) eqn:I; [ | discriminate].
      destruct other as [b | v]; [ | discriminate].
      intros H. apply Z.eqb_eq in H. exists b. auto.
    + intros [b [-> [I H]]]. rewrite I. now apply Z.eqb_eq.
  - intros b -> I K B V. rewrite I. apply Z.eqb_eq.
    now apply same_identity_same_hash.
  - intros I. rewrite I. reflexivity.
  - destruct (isinstance other (__class__ a)); [ | reflexivity].
    destruct other; reflexivity.
Qed.

Lemma own_class_in_mro (a : RiakObject) :
  ob_mro a <> [] -> existsb (String.eqb (__class__ a)) (ob_mro a) = true.
Proof.
  unfold __class__. destruct (ob_mro a) as [| c l]; [congruence | ].
  intros _. simpl. rewrite String.eqb_refl. reflexivity.
Qed.

(** [a == b] on two records, by whether they are of one class. *)
Lemma py_eq_same_class (a b : RiakObject) :
  ob_mro b <> [] -> __class__ a = __class__ b ->
  py_eq rt a (Instance b) = (__hash__ rt a =? __hash__ rt b)
  /\ py_ne rt a (Instance b) = negb (__hash__ rt a =? __hash__ rt b).
Proof.
  intros N E. unfold py_eq, py_ne, proper_subtype, __eq__, __ne__, isinstance.
  rewrite E, String.eqb_refl. simpl.
  rewrite (own_class_in_mro b N). split; reflexivity.
Qed.

Lemma py_eq_other_class (a b : RiakObject) :
  proper_hierarchy a b -> __class__ a <> __class__ b ->
  py_eq rt a (Instance b) = false /\ py_ne rt a (Instance b) = true.
Proof.
  intros [Na [Nb A]] D.
  unfold py_eq, py_ne, proper_subtype, __eq__, __ne__, isinstance.
  apply String.eqb_neq in D as D'. rewrite D'. simpl.
  destruct (existsb (String.eqb (__class__ a)) (ob_mro b)) eqn:I.
  - rewrite (A D eq_refl). split; reflexivity.
  - split; reflexivity.
Qed.

(** C4 (as the code has it). Two records compare equal with [==] exactly
    when they are of the same class and the two hashes of (key, bucket,
    vclock) agree. The clock enters that hash by its object identity, not by
    its bytes: records of one class with equal key, equal bucket and the
    very same clock object (or no clock on either side) are equal. Records
    of different classes are never equal, nor is a record equal to a value
    of another kind, and [!=] is the negation of [==]. *)
Theorem eq_is_hash_equality (a b : RiakObject) :
  proper_hierarchy a b ->
  (py_eq rt a (Instance b) = true <->
     __class__ a = __class__ b /\ __hash__ rt a = __hash__ rt b)
  /\ (__class__ a = __class__ b ->
      key a = key b -> bucket a = bucket b ->
      option_map VClock.ob_id (vclock a)
      = option_map VClock.ob_id (vclock b) ->
      py_eq rt a (Instance b) = true)
  /\ (__class__ a <> __class__ b -> py_eq rt a (Instance b) = false)
  /\ (forall v, py_eq rt a (Foreign v) = false)
  /\ py_ne rt a (Instance b) = negb (py_eq rt a (Instance b)).
Proof.
  intros W. pose proof W as [Na [Nb A]].
  split; [ | split; [ | split; [ | split]]].
  - split.
    + intros H.
      destruct (String.string_dec (__class__ a) (__class__ b)) as [E | D].
      * destruct (py_eq_same_class a b Nb E) as [P _].
        rewrite P in H. apply Z.eqb_eq in H. auto.
      * destruct (py_eq_other_class a b W D) as [P _].
        rewrite P in H. discriminate H.
    + intros [E H]. destruct (py_eq_same_class a b Nb E) as [P _].
      rewrite P. now apply Z.eqb_eq.
  - intros E K B V. destruct (py_eq_same_class a b Nb E) as [P _].
    rewrite P. apply Z.eqb_eq. now apply same_identity_same_hash.
  - intros D. apply (py_eq_other_class a b W D).
  - intros v. reflexivity.
  - destruct (String.string_dec (__class__ a) (__class__ b)) as [E | D].
    + destruct (py_eq_same_class a b Nb E) as [P Q]. rewrite P, Q.
      reflexivity.
    + destruct (py_eq_other_class a b W D) as [P Q]. rewrite P, Q.
      reflexivity.
Qed.

End IdentityFacts.

(** ** The sample records *)

Module SampleFacts.

Import Sample.

(** C4, counterexample: two records with the same key and bucket whose
    clocks hold the same bytes in two objects do not compare equal. *)
Lemma equal_clock_bytes_unequal_records :
  key (record (Some clock_T) [with_data "a"])
  = key (record (Some clock_T') [with_data "a"])
  /\ bucket (record (Some clock_T) [with_data "a"])
     = bucket (record (Some clock_T') [with_data "a"])
  /\ VClock._vclock clock_T = VClock._vclock clock_T'
  /\ ob_mro (record (Some clock_T) [with_data "a"])
     = ob_mro (record (Some clock_T') [with_data "a"])
  /\ __eq__ CPython27.hashing (record (Some clock_T) [with_data "a"])
       (Instance (record (Some clock_T') [with_data "a"])) = false
  /\ py_eq CPython27.hashing (record (Some clock_T) [with_data "a"])
       (Instance (record (Some clock_T') [with_data "a"])) = false.
Proof. vm_compute. repeat split. Qed.

(** C6, counterexample: when the transport's [delete] raises, the two
    Versions of a conflicted record are still there and [exists] is
    true. *)
Lemma failed_delete_keeps_versions :
  List.length
    (siblings (self (fst (delete failing_client PyNone PyNone PyNone PyNone
                            PyNone PyNone (world conflicted))))) = 2%nat
  /\ _exists (self (fst (delete failing_client PyNone PyNone PyNone PyNone
                           PyNone PyNone (world conflicted)))) = true
  /\ snd (delete failing_client PyNone PyNone PyNone PyNone PyNone PyNone
            (world conflicted))
     = Raise (OtherError "RiakError: no nodes available").
Proof. vm_compute. repeat split. Qed.

End SampleFacts.

(** ** The theorems at the sample records *)

Module Witness.

Import Sample.

#[local] Existing Instance Version.content.

Lemma conflict_refuses_access_witness :
  (1 < List.length (siblings (self (world conflicted))))%nat
  /\ fst data (world conflicted)
     = (world conflicted, Raise (ConflictError no_conflict_msg))
  /\ snd data (PyStr "c") (world conflicted)
     = (world conflicted, Raise (ConflictError no_conflict_msg))
  /\ add_index [PyStr "age_int"; PyInt 3] (world conflicted)
     = (world conflicted, Raise (ConflictError no_conflict_msg))
  /\ store quiet_client PyNone PyNone PyNone (PyBool true) (PyBool false)
       PyNone (world conflicted)
     = (world conflicted, Raise (ConflictError store_conflict_msg))
  /\ snd (reload quiet_client PyNone PyNone PyNone PyNone PyNone
            (world conflicted)) = Ok conflicted
  /\ snd (delete quiet_client PyNone PyNone PyNone PyNone PyNone PyNone
            (world conflicted)) = Ok (set_siblings conflicted []).
Proof.
  assert (H : (1 < List.length (siblings (self (world conflicted))))%nat)
    by (simpl; lia).
  destruct (conflict_refuses_access quiet_client (world conflicted) H)
    as [P [Me [St [Re De]]]].
  split; [exact H | ].
  split; [apply (P data); simpl; auto | ].
  split; [apply (P data); simpl; auto | ].
  split; [apply (Me add_index); simpl; auto | ].
  split; [apply St | ].
  split; [apply (Re _ _ _ _ _ conflicted PyNone); reflexivity | ].
  apply (De _ _ _ _ _ _ conflicted PyNone); reflexivity.
Defined.

Lemma eq_is_hash_equality_witness :
  proper_hierarchy resolved subclass_record
  /\ __class__ resolved <> __class__ subclass_record
  /\ py_eq CPython27.hashing resolved (Instance subclass_record) = false
  /\ py_eq CPython27.hashing resolved (Instance conflicted) = true.
Proof.
  assert (W : proper_hierarchy resolved subclass_record).
  { split; [discriminate | split; [discriminate | ] ].
    intros _ _. reflexivity. }
  assert (W' : proper_hierarchy resolved conflicted).
  { split; [discriminate | split; [discriminate | ] ].
    intros D. exfalso. apply D. reflexivity. }
  assert (D : __class__ resolved <> __class__ subclass_record)
    by discriminate.
  destruct (eq_is_hash_equality CPython27.hashing resolved subclass_record W)
    as [_ [_ [F _]]].
  destruct (eq_is_hash_equality CPython27.hashing resolved conflicted W')
    as [_ [T _]].
  split; [exact W | ]. split; [exact D | ]. split; [exact (F D) | ].
  apply T; reflexivity.
Defined.

Lemma empty_record_access_witness :
  siblings (self (world empty)) = []
  /\ In data properties
  /\ exists name, data = content_property name
     /\ fst data (world empty) = (world empty, Ok PyNone)
     /\ forall v,
          snd data v (world empty)
          = ({| self :=
                  set_siblings (self (world empty))
                    [fst (content_setattr name v RiakContent_new)];
                calls := calls (world empty) |},
             snd (content_setattr name v RiakContent_new))
          /\ List.length (siblings (self (fst (snd data v (world empty)))))
             = 1%nat.
Proof.
  split; [reflexivity | ].
  split; [simpl; auto | ].
  apply (empty_record_access (world empty)); [reflexivity | simpl; auto].
Defined.

Lemma decode_encode_decode_witness :
  supported "binary"
  /\ VClock.__init__ true 1 (list_byte_of_string "YWJj") "base64"
     = Ok (VClock.mk 1 (list_byte_of_string "abc"))
  /\ supported "base64"
  /\ exists y v',
       VClock.encode (VClock.mk 1 (list_byte_of_string "abc")) "binary"
       = Ok y
       /\ VClock.__init__ true 2 y "binary" = Ok v'
       /\ VClock._vclock v'
          = VClock._vclock (VClock.mk 1 (list_byte_of_string "abc")).
Proof.
  split; [right; reflexivity | ].
  split; [reflexivity | ].
  apply (decode_encode_decode true "base64" "binary"
           (list_byte_of_string "YWJj") 1 2).
  - right; reflexivity.
  - reflexivity.
Defined.

Lemma mutators_need_one_version_witness :
  In add_index [add_link; add_index; set_index; remove_index; remove_indexes]
  /\ (siblings (self (world empty)) = [] ->
      add_index [PyStr "age_int"; PyInt 3] (world empty)
      = (world empty, Raise (ConflictError no_conflict_msg)))
  /\ (is_ok (snd (add_index [PyStr "age_int"; PyInt 3] (world empty)))
      = true ->
      List.length (siblings (self (world empty))) = 1%nat).
Proof.
  split; [simpl; auto | ].
  apply (mutators_need_one_version (world empty)). simpl; auto.
Defined.

End Witness.

(** ** Further properties: frames, life cycle, resolver, equality, codec *)

Section Frame.

Context {content : Content}.
Variable client : Call -> RiakObject -> RiakObject * result PyVal.

Ltac run := unfold bind, get_siblings, put_siblings, raise, ret, ret_self,
  on_sibling0, call_client; simpl.

Lemma same_header_refl (o : RiakObject) : same_header o o.
Proof. unfold same_header. auto. Qed.

Lemma same_header_set_siblings (o : RiakObject) l :
  same_header o (set_siblings o l).
Proof. unfold same_header. simpl. auto. Qed.

Lemma set_siblings_id (o : RiakObject) : set_siblings o (siblings o) = o.
Proof. destruct o; reflexivity. Qed.

(** What a delegator does to the record, by the number of siblings. *)
Lemma _getter_run name w :
  _getter name w
  = match siblings (self w) with
    | [] => (w, Ok PyNone)
    | [c] =>
        ({| self := set_siblings (self w) [fst (content_getattr name c)];
            calls := calls w |}, snd (content_getattr name c))
    | _ :: _ :: _ => (w, Raise (ConflictError no_conflict_msg))
    end.
Proof.
  unfold _getter. run.
  destruct (siblings (self w)) as [| c [| c' l]] eqn:E;
    repeat (simpl; rewrite ?E); try reflexivity.
  destruct (content_getattr name c); reflexivity.
Qed.

Lemma _setter_run name v w :
  _setter name v w
  = match siblings (self w) with
    | [] =>
        ({| self := set_siblings (self w)
                      [fst (content_setattr name v RiakContent_new)];
            calls := calls w |},
         snd (content_setattr name v RiakContent_new))
    | [c] =>
        ({| self := set_siblings (self w) [fst (content_setattr name v c)];
            calls := calls w |}, snd (content_setattr name v c))
    | _ :: _ :: _ => (w, Raise (ConflictError no_conflict_msg))
    end.
Proof.
  unfold _setter. run.
  destruct (siblings (self w)) as [| c [| c' l]] eqn:E;
    repeat (simpl; rewrite ?E); try reflexivity.
  - destruct (content_setattr name v RiakContent_new); reflexivity.
  - destruct (content_setattr name v c); reflexivity.
Qed.

Lemma _delegate_run name args w :
  _delegate name args w
  = match siblings (self w) with
    | [c] =>
        ({| self := set_siblings (self w) [fst (content_call name args c)];
            calls := calls w |}, snd (content_call name args c))
    | _ => (w, Raise (ConflictError no_conflict_msg))
    end.
Proof.
  unfold _delegate. run.
  destruct (siblings (self w)) as [| c [| c' l]] eqn:E;
    repeat (simpl; rewrite ?E); try reflexivity.
  destruct (content_call name args c); reflexivity.
Qed.

Lemma delegators_keep_header name v args (w : World) :
  same_header (self w) (self (fst (_getter name w)))
  /\ same_header (self w) (self (fst (_setter name v w)))
  /\ same_header (self w) (self (fst (_delegate name args w))).
Proof.
  rewrite _getter_run, _setter_run, _delegate_run.
  destruct (siblings (self w)) as [| c [| c' l]]; simpl;
    repeat split; reflexivity.
Qed.

Lemma store_one_calls a1 a2 a3 a4 a5 a6 (w : World) :
  List.length (siblings (self w)) = 1%nat ->
  calls (fst (store client a1 a2 a3 a4 a5 a6 w))
  = calls w ++ [client_put a1 a2 a3 a4 a5 a6].
Proof.
  intros E. unfold store. run. rewrite E. simpl.
  destruct (client _ (self w)) as [o [v0 | e]]; reflexivity.
Qed.

(** X1. No delegated getter, setter or method reaches the transport, and
    none of them changes the class, resolver, bucket, key or vector clock
    of the record. *)
Theorem delegators_frame name v args (w : World) :
  (calls (fst (_getter name w)) = calls w
   /\ same_header (self w) (self (fst (_getter name w))))
  /\ (calls (fst (_setter name v w)) = calls w
      /\ same_header (self w) (self (fst (_setter name v w))))
  /\ (calls (fst (_delegate name args w)) = calls w
      /\ same_header (self w) (self (fst (_delegate name args w)))).
Proof.
  rewrite _getter_run, _setter_run, _delegate_run.
  destruct (siblings (self w)) as [| c [| c' l]]; simpl;
    repeat split; reflexivity.
Qed.

(** X2. A getter or a method keeps the number of siblings; a setter leaves
    one sibling on a record that had none and keeps the number otherwise;
    all three leave every sibling after the first as it was. *)
Theorem delegators_sibling_count name v args (w : World) :
  let n := List.length (siblings (self w)) in
  (List.length (siblings (self (fst (_getter name w)))) = n
   /\ tl (siblings (self (fst (_getter name w)))) = tl (siblings (self w)))
  /\ (List.length (siblings (self (fst (_setter name v w)))) = Nat.max 1 n
      /\ tl (siblings (self (fst (_setter name v w))))
         = tl (siblings (self w)))
  /\ (List.length (siblings (self (fst (_delegate name args w)))) = n
      /\ tl (siblings (self (fst (_delegate name args w))))
         = tl (siblings (self w))).
Proof.
  rewrite _getter_run, _setter_run, _delegate_run.
  destruct (siblings (self w)) as [| c [| c' l]] eqn:E; simpl;
    rewrite ?E; simpl; repeat split; reflexivity.
Qed.

(** X3. When the content gives back what was set on it, so does the
    record: a delegated setter that returns is followed by a getter of the
    same name that returns the value set, with the record unchanged. *)
Theorem set_then_get name v (w w' : World) :
  (forall c c', content_setattr name v c = (c', Ok tt) ->
                content_getattr name c' = (c', Ok v)) ->
  _setter name v w = (w', Ok tt) ->
  _getter name w' = (w', Ok v).
Proof.
  intros law S. rewrite _setter_run in S. rewrite _getter_run.
  assert (G : forall c, content_setattr name v c
                        = (fst (content_setattr name v c),
                           snd (content_setattr name v c)))
    by (intros c; destruct (content_setattr name v c); reflexivity).
  destruct (siblings (self w)) as [| c [| c' l]]; [ | | discriminate S].
  - injection S as <- R. simpl.
    pose proof (G RiakContent_new) as G0. rewrite R in G0.
    rewrite (law _ _ G0). simpl. reflexivity.
  - injection S as <- R. simpl.
    pose proof (G c) as G0. rewrite R in G0.
    rewrite (law _ _ G0). simpl. reflexivity.
Qed.

(** X4. [store] reaches the transport exactly when the record holds one
    Version: then there is one [put] carrying all six arguments, the record
    comes back as the transport left it, and an exception of the transport
    goes to the caller; otherwise nothing is sent. *)
Theorem store_put_iff_one_version a1 a2 a3 a4 a5 a6 (w : World) :
  let c := client_put a1 a2 a3 a4 a5 a6 in
  let out := store client a1 a2 a3 a4 a5 a6 w in
  (List.length (siblings (self w)) = 1%nat ->
     calls (fst out) = calls w ++ [c]
     /\ self (fst out) = fst (client c (self w))
     /\ snd out = match snd (client c (self w)) with
                  | Ok _ => Ok (fst (client c (self w)))
                  | Raise e => Raise e
                  end)
  /\ (List.length (siblings (self w)) <> 1%nat ->
       out = (w, Raise (ConflictError store_conflict_msg))).
Proof.
  intros c out. subst c out. split.
  - intros E. unfold store. run. rewrite E. simpl.
    destruct (client _ (self w)) as [o [v | e]]; simpl; auto.
  - apply store_not_one.
Qed.

(** X5. [clear] sends nothing and keeps the class, resolver, bucket, key
    and vector clock. Afterwards [exists] is false, every getter returns
    [None], [store] is refused without a transport call, and clearing
    again changes nothing. *)
Theorem clear_leaves_empty_record (w : World) :
  let w' := fst (clear w) in
  snd (clear w) = Ok (self w')
  /\ calls w' = calls w
  /\ same_header (self w) (self w')
  /\ siblings (self w') = []
  /\ _exists (self w') = false
  /\ (forall name, _getter name w' = (w', Ok PyNone))
  /\ (forall a1 a2 a3 a4 a5 a6,
       store client a1 a2 a3 a4 a5 a6 w'
       = (w', Raise (ConflictError store_conflict_msg)))
  /\ clear w' = (w', Ok (self w')).
Proof.
  intros w'. subst w'. unfold clear. run.
  split; [reflexivity | ]. split; [reflexivity | ].
  split; [apply same_header_set_siblings | ].
  split; [reflexivity | ]. split; [reflexivity | ].
  split; [intros name; rewrite _getter_run; reflexivity | ].
  split; [intros; apply store_not_one; simpl; discriminate | ].
  reflexivity.
Qed.

(** X6. After a [delete] that the transport answered, [store] is refused
    with [ConflictError] and the transport has seen the [delete] only. *)
Theorem delete_then_store_refused r w0 dw pr pw timeout a1 a2 a3 a4 a5 a6
    (w : World) o v :
  client (client_delete r w0 dw pr pw timeout) (self w) = (o, Ok v) ->
  bind (delete client r w0 dw pr pw timeout)
       (fun _ => store client a1 a2 a3 a4 a5 a6) w
  = ({| self := set_siblings o [];
        calls := calls w ++ [client_delete r w0 dw pr pw timeout] |},
     Raise (ConflictError store_conflict_msg)).
Proof.
  intros E. unfold bind at 1. rewrite delete_run. cbv zeta. rewrite E.
  apply store_not_one. simpl. discriminate.
Qed.

(** X7. After a [delete] that the transport answered, a delegated setter
    starts the record again from one fresh Version, and [store] then sends
    a [put]. *)
Theorem delete_then_set_then_store r w0 dw pr pw timeout name x
    a1 a2 a3 a4 a5 a6 (w : World) o v :
  client (client_delete r w0 dw pr pw timeout) (self w) = (o, Ok v) ->
  snd (content_setattr name x RiakContent_new) = Ok tt ->
  let w2 := fst (bind (delete client r w0 dw pr pw timeout)
                      (fun _ => _setter name x) w) in
  siblings (self w2) = [fst (content_setattr name x RiakContent_new)]
  /\ calls (fst (store client a1 a2 a3 a4 a5 a6 w2))
     = calls w ++ [client_delete r w0 dw pr pw timeout;
                   client_put a1 a2 a3 a4 a5 a6].
Proof.
  intros E S w2.
  assert (W : w2 = {| self := set_siblings o
                       [fst (content_setattr name x RiakContent_new)];
                      calls := calls w
                               ++ [client_delete r w0 dw pr pw timeout] |}).
  { subst w2. unfold bind at 1. rewrite delete_run. cbv zeta. rewrite E.
    rewrite _setter_run. reflexivity. }
  rewrite W. split; [reflexivity | ].
  rewrite store_one_calls by reflexivity.
  simpl. rewrite <- app_assoc. reflexivity.
Qed.

(** X8. A [reload] that brings back more than one sibling blocks the next
    [store]: it raises [ConflictError] and the transport has seen the
    [get] only. *)
Theorem reload_conflict_blocks_store r pr timeout bq nf a1 a2 a3 a4 a5 a6
    (w : World) o v :
  client (client_get r pr timeout PyNone PyNone) (self w) = (o, Ok v) ->
  (1 < List.length (siblings o))%nat ->
  bind (reload client r pr timeout bq nf)
       (fun _ => store client a1 a2 a3 a4 a5 a6) w
  = ({| self := o;
        calls := calls w ++ [client_get r pr timeout PyNone PyNone] |},
     Raise (ConflictError store_conflict_msg)).
Proof.
  intros E H. unfold bind at 1. rewrite reload_run, E.
  apply store_not_one. simpl. lia.
Qed.

(** X9. [__init__] accepts a key exactly when it is [None] or a non-empty
    string (of ASCII characters on Python 2); an empty key is a
    [ValueError] on both Pythons. *)
Theorem init_accepts_iff (PY2 : bool) mro b k :
  (is_ok (__init__ PY2 mro b k) = true <-> key_ok PY2 k)
  /\ (k = Some ""%string ->
       __init__ PY2 mro b k = Raise (ValueError empty_key_msg)).
Proof.
  unfold __init__, key_ok. split.
  - destruct k as [s | ].
    + destruct PY2; simpl.
      * destruct (is_ascii s) eqn:A; simpl.
        -- destruct s as [| ch s]; simpl.
           ++ split; [discriminate | intros [N _]; congruence].
           ++ split; [intros _; split; [discriminate | auto] | auto].
        -- split; [discriminate | ]. intros [_ N].
           specialize (N eq_refl). discriminate N.
      * destruct s as [| ch s]; simpl.
        -- split; [discriminate | intros [N _]; congruence].
        -- split; [intros _; split; [discriminate | discriminate] | auto].
    + rewrite andb_false_r. simpl. tauto.
  - intros ->. destruct PY2; reflexivity.
Qed.

(** X10. A record that [__init__] returned holds one fresh Version, no
    vector clock and no resolver of its own: its resolver is the bucket's,
    and [store] sends its [put] at once. *)
Theorem init_gives_storable_record (PY2 : bool) mro b k o
    a1 a2 a3 a4 a5 a6 :
  __init__ PY2 mro b k = Ok o ->
  siblings o = [RiakContent_new]
  /\ vclock o = None /\ key o = k /\ bucket o = b /\ ob_mro o = mro
  /\ _get_resolver o = Ok (bucket_resolver b)
  /\ calls (fst (store client a1 a2 a3 a4 a5 a6
                   {| self := o; calls := [] |}))
     = [client_put a1 a2 a3 a4 a5 a6].
Proof.
  unfold __init__.
  destruct (PY2 && _); [discriminate | ].
  destruct (match k with Some _ => _ | None => _ end); [discriminate | ].
  intros [= <-]. repeat (split; [reflexivity | ]).
  rewrite store_one_calls by reflexivity. reflexivity.
Qed.

End Frame.

Section Resolver.

Context {content : Content}.

(** X11. [None] or a callable is all the resolver setter ever stores: the
    property holds for a new record, survives every setter call, accepted or
    refused, as well as the delegators and [clear], and while it holds
    reading [resolver] does not raise. *)
Theorem resolver_stays_valid (w : World) value name x args :
  (forall PY2 mro b k o, __init__ PY2 mro b k = Ok o -> resolver_ok o = true)
  /\ (resolver_ok (self w) = true ->
      resolver_ok (self (fst (_set_resolver value w))) = true
      /\ resolver_ok (self (fst (_getter name w))) = true
      /\ resolver_ok (self (fst (_setter name x w))) = true
      /\ resolver_ok (self (fst (_delegate name args w))) = true
      /\ resolver_ok (self (fst (clear w))) = true
      /\ is_ok (_get_resolver (self w)) = true).
Proof.
  split.
  - intros PY2 mro b k o. unfold __init__.
    destruct (PY2 && _); [discriminate | ].
    destruct (match k with Some _ => _ | None => _ end); [discriminate | ].
    intros [= <-]. reflexivity.
  - intros H.
    destruct (delegators_keep_header name x args w)
      as [[_ [G _]] [[_ [S _]] [_ [D _]]]].
    unfold resolver_ok in *. rewrite <- G, <- S, <- D.
    repeat split; auto.
    + unfold _set_resolver.
      destruct (is_None value || callable value) eqn:V; simpl; auto.
    + unfold _get_resolver.
      destruct (callable (_resolver (self w))); [reflexivity | ].
      rewrite orb_false_r in H. rewrite H. reflexivity.
Qed.

(** X12. Reading [resolver] after writing it: a callable comes back
    itself, [None] gives the bucket's resolver, and a refused value leaves
    the answer as it was. *)
Theorem resolver_set_then_get (w : World) value :
  let w' := fst (_set_resolver value w) in
  (callable value = true -> _get_resolver (self w') = Ok value)
  /\ (value = PyNone ->
      _get_resolver (self w') = Ok (bucket_resolver (bucket (self w))))
  /\ (callable value = false -> value <> PyNone ->
      w' = w /\ _get_resolver (self w') = _get_resolver (self w)).
Proof.
  intros w'. subst w'. unfold _set_resolver. split; [ | split].
  - intros C. rewrite C, orb_true_r. simpl.
    unfold _get_resolver. simpl. rewrite C. reflexivity.
  - intros ->. reflexivity.
  - intros C N. rewrite C.
    destruct value; simpl in *; try discriminate; auto; congruence.
Qed.

End Resolver.

Section Equality.

Context {content : Content}.
Variable rt : PyHash.

Lemma isinstance_own_class (a b : RiakObject) :
  ob_mro a <> [] -> ob_mro a = ob_mro b ->
  isinstance (Instance b) (__class__ a) = true.
Proof.
  intros N E. unfold isinstance, __class__. rewrite <- E.
  destruct (ob_mro a) as [| c l]; [congruence | ].
  simpl. rewrite String.eqb_refl. reflexivity.
Qed.

(** X13. On records of one class, [==] is an equivalence: every record
    equals itself, and the comparison is symmetric and transitive. *)
Theorem eq_equivalence (a b c : RiakObject) :
  ob_mro a <> [] -> ob_mro a = ob_mro b -> ob_mro b = ob_mro c ->
  __eq__ rt a (Instance a) = true
  /\ __eq__ rt a (Instance b) = __eq__ rt b (Instance a)
  /\ (__eq__ rt a (Instance b) = true -> __eq__ rt b (Instance c) = true ->
      __eq__ rt a (Instance c) = true).
Proof.
  intros N E1 E2.
  assert (Nb : ob_mro b <> []) by congruence.
  unfold __eq__.
  rewrite (isinstance_own_class a a N eq_refl).
  rewrite (isinstance_own_class a b N E1).
  rewrite (isinstance_own_class b a Nb (eq_sym E1)).
  rewrite (isinstance_own_class b c Nb E2).
  rewrite (isinstance_own_class a c N (eq_trans E1 E2)).
  split; [apply Z.eqb_refl | split].
  - apply Z.eqb_sym.
  - rewrite !Z.eqb_eq. congruence.
Qed.

(** X14. Equality does not look at the Versions or at the resolver: a
    record compares equal to what it becomes under any delegated setter or
    method, under [clear] and under the resolver setter. *)
Theorem eq_ignores_content (w : World) name x args value :
  ob_mro (self w) <> [] ->
  __eq__ rt (self w) (Instance (self (fst (_setter name x w)))) = true
  /\ __eq__ rt (self w) (Instance (self (fst (_delegate name args w))))
     = true
  /\ __eq__ rt (self w) (Instance (self (fst (clear w)))) = true
  /\ __eq__ rt (self w) (Instance (self (fst (_set_resolver value w))))
     = true.
Proof.
  intros N.
  assert (K : forall o : RiakObject,
            ob_mro (self w) = ob_mro o -> bucket (self w) = bucket o ->
            key (self w) = key o -> vclock (self w) = vclock o ->
            __eq__ rt (self w) (Instance o) = true).
  { intros o M B Ky V. unfold __eq__.
    rewrite (isinstance_own_class _ _ N M). apply Z.eqb_eq.
    apply same_identity_same_hash; auto. now rewrite V. }
  destruct (delegators_keep_header name x args w)
    as [_ [[M1 [_ [B1 [K1 V1]]]] [M2 [_ [B2 [K2 V2]]]]]].
  split; [apply K; auto | ]. split; [apply K; auto | ].
  split; [apply K; reflexivity | ].
  apply K; unfold _set_resolver;
    destruct (is_None value || callable value); reflexivity.
Qed.

(** X15. With a subclass the comparison is one-sided: when [b]'s class
    derives from [a]'s and the hashes agree, [a == b] holds and [b == a]
    does not. *)
Theorem eq_subclass_one_sided (a b : RiakObject) :
  existsb (String.eqb (__class__ a)) (ob_mro b) = true ->
  existsb (String.eqb (__class__ b)) (ob_mro a) = false ->
  __hash__ rt a = __hash__ rt b ->
  __eq__ rt a (Instance b) = true /\ __eq__ rt b (Instance a) = false
  /\ __ne__ rt b (Instance a) = true.
Proof.
  intros I1 I2 H. unfold __eq__, __ne__, isinstance.
  rewrite I1, I2, H, Z.eqb_refl. auto.
Qed.

End Equality.

Section VClockCodec.

Variable PY2 : bool.

(** The error of a failed base64 decoding on this interpreter. *)
Lemma init_base64 (i : Z) (b : bytes) :
  VClock.__init__ PY2 i b "base64"
  = match binascii.a2b_base64 b with
    | Ok x => Ok (VClock.mk i x)
    | Raise _ =>
        Raise (if PY2 then TypeError "Incorrect padding"
               else binascii_Error)
    end.
Proof.
  unfold VClock.__init__. cbn [VClock._decoders VClock.dict_get String.eqb
    Ascii.eqb Bool.eqb]. unfold base64.b64decode, binascii.a2b_base64.
  destruct (binascii.a2b_loop b 0 0 0) as [out lb].
  destruct (lb =? 0); [reflexivity | ]. destruct PY2; reflexivity.
Qed.

(** X16. For a supported name the constructor keeps binary input byte for
    byte, and on base64 input it either yields a clock or raises the error
    of the decoder (a [TypeError] saying "Incorrect padding" on Python 2, a
    [binascii.Error] on Python 3); it never raises [KeyError]. *)
Theorem decode_outcomes (e : string) (i : Z) (b : bytes) :
  supported e ->
  VClock.__init__ PY2 i b "binary" = Ok (VClock.mk i b)
  /\ ((exists x, VClock.__init__ PY2 i b e = Ok (VClock.mk i x))
      \/ VClock.__init__ PY2 i b e
         = Raise (if PY2 then TypeError "Incorrect padding"
                  else binascii_Error))
  /\ VClock.__init__ PY2 i b e <> Raise (KeyError e).
Proof.
  intros S. split; [reflexivity | ].
  destruct S as [-> | ->].
  - rewrite init_base64.
    destruct (binascii.a2b_base64 b) as [x | err].
    + split; [left; exists x; reflexivity | discriminate].
    + split; [right; reflexivity | destruct PY2; discriminate].
  - split; [left; exists b; reflexivity | discriminate].
Qed.

(** X17. [encode] returns exactly for the two supported names, and the
    constructor raises [KeyError] exactly for the others. *)
Theorem codec_lookup_iff (e : string) (i : Z) (b : bytes)
    (v : VClock.VClock) :
  (is_ok (VClock.encode v e) = true <-> supported e)
  /\ (VClock.__init__ PY2 i b e = Raise (KeyError e) <-> ~ supported e).
Proof.
  split.
  - split.
    + intros H.
      assert (D : supported e \/ ~ supported e).
      { unfold supported.
        destruct (String.string_dec e "base64") as [-> | N1]; [auto | ].
        destruct (String.string_dec e "binary") as [-> | N2]; [auto | ].
        right. intros [E | E]; congruence. }
      destruct D as [S | N]; [exact S | ].
      destruct (unsupported_encoding PY2 e i b v N) as [_ E].
      rewrite E in H. discriminate H.
    + intros S. destruct (encode_then_decode PY2 e i v S) as [y [E _]].
      rewrite E. reflexivity.
  - split.
    + intros H [-> | ->].
      * rewrite init_base64 in H.
        destruct (binascii.a2b_base64 b); [discriminate H | ].
        destruct PY2; discriminate H.
      * discriminate H.
    + intros N. apply (unsupported_encoding PY2 e i b v N).
Qed.

(** X18. Under a supported name two clocks with the same encoding have the
    same raw bytes. *)
Theorem encode_injective (e : string) (v1 v2 : VClock.VClock) :
  supported e ->
  VClock.encode v1 e = VClock.encode v2 e ->
  VClock._vclock v1 = VClock._vclock v2.
Proof.
  intros S E.
  destruct (encode_then_decode PY2 e 0 v1 S) as [y1 [E1 D1]].
  destruct (encode_then_decode PY2 e 0 v2 S) as [y2 [E2 D2]].
  rewrite E, E2 in E1. injection E1 as <-.
  rewrite D1 in D2. injection D2 as D2. exact D2.
Qed.

End VClockCodec.

Module ExtraWitness.

Import Sample.

#[local] Existing Instance Version.content.

Lemma set_then_get_witness :
  _setter "data" (PyStr "hello") (world empty)
  = (fst (_setter "data" (PyStr "hello") (world empty)), Ok tt)
  /\ _getter "data" (fst (_setter "data" (PyStr "hello") (world empty)))
     = (fst (_setter "data" (PyStr "hello") (world empty)),
        Ok (PyStr "hello")).
Proof.
  split; [reflexivity | ].
  apply (set_then_get "data" (PyStr "hello") (world empty)).
  - intros c c' E. injection E as <-. reflexivity.
  - reflexivity.
Defined.

Lemma delete_then_store_refused_witness :
  quiet_client (client_delete PyNone PyNone PyNone PyNone PyNone PyNone)
    (self (world conflicted)) = (conflicted, Ok PyNone)
  /\ bind (delete quiet_client PyNone PyNone PyNone PyNone PyNone PyNone)
       (fun _ => store quiet_client PyNone PyNone PyNone (PyBool true)
                   (PyBool false) PyNone) (world conflicted)
     = ({| self := set_siblings conflicted [];
           calls := calls (world conflicted)
                    ++ [client_delete PyNone PyNone PyNone PyNone PyNone
                          PyNone] |},
        Raise (ConflictError store_conflict_msg)).
Proof.
  split; [reflexivity | ].
  apply (delete_then_store_refused quiet_client) with (v := PyNone).
  reflexivity.
Defined.

Lemma delete_then_set_then_store_witness :
  siblings
    (self (fst (bind (delete quiet_client PyNone PyNone PyNone PyNone
                        PyNone PyNone)
                     (fun _ => _setter "data" (PyStr "x"))
                     (world conflicted))))
  = [fst (content_setattr "data" (PyStr "x") RiakContent_new)]
  /\ calls
       (fst (store quiet_client PyNone PyNone PyNone (PyBool true)
               (PyBool false) PyNone
               (fst (bind (delete quiet_client PyNone PyNone PyNone PyNone
                             PyNone PyNone)
                          (fun _ => _setter "data" (PyStr "x"))
                          (world conflicted)))))
     = calls (world conflicted)
       ++ [client_delete PyNone PyNone PyNone PyNone PyNone PyNone;
           client_put PyNone PyNone PyNone (PyBool true) (PyBool false)
             PyNone].
Proof.
  apply (delete_then_set_then_store quiet_client PyNone PyNone PyNone
           PyNone PyNone PyNone "data" (PyStr "x") PyNone PyNone PyNone
           (PyBool true) (PyBool false) PyNone (world conflicted)
           conflicted PyNone); reflexivity.
Defined.

Lemma reload_conflict_blocks_store_witness :
  (1 < List.length (siblings conflicted))%nat
  /\ bind (reload sibling_client PyNone PyNone PyNone PyNone PyNone)
       (fun _ => store sibling_client PyNone PyNone PyNone (PyBool true)
                   (PyBool false) PyNone) (world resolved)
     = ({| self := conflicted;
           calls := calls (world resolved)
                    ++ [client_get PyNone PyNone PyNone PyNone PyNone] |},
        Raise (ConflictError store_conflict_msg)).
Proof.
  split; [simpl; lia | ].
  apply (reload_conflict_blocks_store sibling_client) with (v := PyNone).
  - reflexivity.
  - simpl; lia.
Defined.

Lemma init_gives_storable_record_witness :
  __init__ false ["RiakObject"; "object"]%string bucket_b (Some "k1"%string)
  = Ok (record None [Version.fresh])
  /\ _get_resolver (record None [Version.fresh])
     = Ok (bucket_resolver bucket_b)
  /\ calls (fst (store quiet_client PyNone PyNone PyNone (PyBool true)
                   (PyBool false) PyNone
                   {| self := record None [Version.fresh]; calls := [] |}))
     = [client_put PyNone PyNone PyNone (PyBool true) (PyBool false)
          PyNone].
Proof.
  split; [reflexivity | ].
  destruct (init_gives_storable_record quiet_client false
              ["RiakObject"; "object"]%string bucket_b (Some "k1"%string)
              (record None [Version.fresh])
              PyNone PyNone PyNone (PyBool true) (PyBool false) PyNone
              eq_refl) as [_ [_ [_ [_ [_ [R C]]]]]].
  split; [exact R | exact C].
Defined.

Lemma eq_equivalence_witness :
  ob_mro resolved <> []
  /\ __eq__ CPython27.hashing resolved (Instance resolved) = true
  /\ __eq__ CPython27.hashing resolved (Instance conflicted)
     = __eq__ CPython27.hashing conflicted (Instance resolved).
Proof.
  assert (N : ob_mro resolved <> []) by discriminate.
  destruct (eq_equivalence CPython27.hashing resolved conflicted empty N
              eq_refl eq_refl) as [R [S _]].
  split; [exact N | split; [exact R | exact S]].
Defined.

Lemma eq_ignores_content_witness :
  ob_mro (self (world resolved)) <> []
  /\ __eq__ CPython27.hashing (self (world resolved))
       (Instance (self (fst (_setter "data" (PyStr "z") (world resolved)))))
     = true
  /\ __eq__ CPython27.hashing (self (world resolved))
       (Instance (self (fst (clear (world resolved))))) = true.
Proof.
  assert (N : ob_mro (self (world resolved)) <> []) by discriminate.
  destruct (eq_ignores_content CPython27.hashing (world resolved) "data"
              (PyStr "z") [] PyNone N) as [S [_ [C _]]].
  split; [exact N | split; [exact S | exact C]].
Defined.

Lemma eq_subclass_one_sided_witness :
  __eq__ CPython27.hashing resolved (Instance subclass_record) = true
  /\ __eq__ CPython27.hashing subclass_record (Instance resolved) = false
  /\ __ne__ CPython27.hashing subclass_record (Instance resolved) = true.
Proof.
  apply (eq_subclass_one_sided CPython27.hashing resolved subclass_record);
    reflexivity.
Defined.

Lemma decode_outcomes_witness :
  supported "base64"
  /\ VClock.__init__ false 7 (list_byte_of_string "YWJ") "base64"
     <> Raise (KeyError "base64").
Proof.
  assert (S : supported "base64") by (left; reflexivity).
  destruct (decode_outcomes false "base64" 7 (list_byte_of_string "YWJ") S)
    as [_ [_ N]].
  split; [exact S | exact N].
Defined.

Lemma encode_injective_witness :
  supported "base64"
  /\ VClock.encode clock_T "base64" = VClock.encode clock_T' "base64"
  /\ VClock._vclock clock_T = VClock._vclock clock_T'.
Proof.
  assert (S : supported "base64") by (left; reflexivity).
  split; [exact S | ]. split; [reflexivity | ].
  apply (encode_injective true "base64" clock_T clock_T' S). reflexivity.
Defined.

End ExtraWitness.
